(** * Finance aggregation hooks of the seller dashboard

    A shallow embedding of [src/hooks/useFinanceData.ts] (the hooks
    [useFinanceData] and [useFinanceBreakdown]) and of the earlier
    transactions-table variant of the same module, with the properties
    of the three-tier fallback, of the per-record categorisation and of
    the category list.

    Conventions of the model:
    - a JavaScript [number] is an exact rational ([Q]); [===] on numbers
      is [Qeq_bool], [>] is [Qgtb].  Rounding of IEEE doubles, [NaN] and
      the infinities are outside the model;
    - a JavaScript string is a Rocq [string] holding its UTF-8 bytes;
      [String.prototype.includes] is byte-wise substring search, which on
      well-formed UTF-8 agrees with search on code points;
    - a nullable value is an [option]. *)

From Stdlib Require Import QArith Qabs Qround Lqa Lia ZArith List String Ascii Bool.
From Stdlib Require Import Sorting.Sorted Sorting.Permutation.
Import ListNotations.

Local Open Scope string_scope.
Local Open Scope Q_scope.

(** ** JavaScript primitives used by the hooks *)

Module Js.

(** [a > b] on numbers. *)
Definition Qgtb (a b : Q) : bool := negb (Qle_bool a b).

(** [x || 0] on a number: [0] is the only falsy rational. *)
Definition or0 (x : Q) : Q := if Qeq_bool x 0 then 0 else x.

(** [Math.abs]. *)
Definition abs (x : Q) : Q := Qabs x.

(** [s.includes(sub)]. *)
Fixpoint includes (s sub : string) : bool :=
  if String.prefix sub s then true
  else match s with
       | EmptyString => false
       | String _ s' => includes s' sub
       end.

Definition byte_in (lo hi : N) (c : ascii) : bool :=
  (lo <=? N_of_ascii c)%N && (N_of_ascii c <=? hi)%N.

Definition shift_up (d : N) (c : ascii) : ascii := ascii_of_N (N_of_ascii c + d).
Definition shift_down (d : N) (c : ascii) : ascii := ascii_of_N (N_of_ascii c - d).

Definition xD0 : ascii := ascii_of_N 208.
Definition xD1 : ascii := ascii_of_N 209.

(** [s.toLowerCase()] on the UTF-8 bytes of [s], for the two alphabets
    of the keyword table: ASCII [A-Z] and the Cyrillic capitals
    U+0400..U+042F (lead byte D0).  Every other byte sequence is kept. *)
Fixpoint toLowerCase (s : string) : string :=
  match s with
  | EmptyString => EmptyString
  | String c s' =>
      match s' with
      | String d s'' =>
          if Ascii.eqb c xD0 then
            if byte_in 128 143 d then String xD1 (String (shift_up 16 d) (toLowerCase s''))
            else if byte_in 144 159 d then String xD0 (String (shift_up 32 d) (toLowerCase s''))
            else if byte_in 160 175 d then String xD1 (String (shift_down 32 d) (toLowerCase s''))
            else String c (toLowerCase s')
          else if byte_in 65 90 c then String (shift_up 32 c) (toLowerCase s')
          else String c (toLowerCase s')
      | EmptyString =>
          if byte_in 65 90 c then String (shift_up 32 c) EmptyString
          else String c EmptyString
      end
  end.

(** [l[0]] *)
Definition first {A} (l : list A) : option A := hd_error l.

End Js.

Import Js.

(** Modelled from the spec: [toNumber] of [lib/format] is imported by the
    hooks but its module is not part of the sources.  The spec says:
    numeric coercion of any null, missing or non-numeric field defaults
    to 0.  A field is [None] when it is null, missing or non-numeric. *)
Definition toNumber (v : option Q) : Q :=
  match v with
  | Some q => q
  | None => 0
  end.

(** ** Data model *)

(** [FinanceCategory] *)
Record FinanceCategory := mkFinanceCategory {
  category : string;
  amount : Q;
  percentage : Q;
  color : string
}.

(** [FinanceSummary] *)
Record FinanceSummary := mkFinanceSummary {
  sales : Q;
  commissions : Q;
  delivery : Q;
  returns : Q;
  ads : Q;
  services : Q;
  totalIncome : Q;
  totalExpenses : Q;
  netProfit : Q
}.

(** What [queryFn] of [useFinanceData] resolves to. *)
Record FinanceData := mkFinanceData {
  summary : FinanceSummary;
  categories : list FinanceCategory
}.

Definition CATEGORY_COLORS : list (string * string) :=
  [ ("sales", "#10b981"); ("commissions", "#ef4444"); ("delivery", "#f59e0b");
    ("returns", "#8b5cf6"); ("ads", "#06b6d4"); ("services", "#84cc16") ].

Definition CATEGORY_LABELS : list (string * string) :=
  [ ("sales", "Продажи"); ("commissions", "Комиссии"); ("delivery", "Доставка");
    ("returns", "Возвраты"); ("ads", "Реклама"); ("services", "Услуги") ].

(** Property lookup in an object literal: [obj[key]]. *)
Fixpoint prop (obj : list (string * string)) (key : string) : option string :=
  match obj with
  | [] => None
  | (k, v) :: rest => if String.eqb key k then Some v else prop rest key
  end.

(** [key in obj] *)
Definition has_key (obj : list (string * string)) (key : string) : bool :=
  match prop obj key with Some _ => true | None => false end.

(** A row of the [dashboard_summary] view (tier 1). *)
Record SummaryRow := mkSummaryRow {
  total_revenue : option Q;
  total_commission : option Q;
  total_service_costs : option Q;
  total_payout : option Q
}.

(** A row returned by the [get_finance_summary] procedure (tier 2). *)
Record RpcRow := mkRpcRow {
  total_sales : option Q;
  total_commissions : option Q;
  total_delivery : option Q;
  total_returns : option Q;
  total_ads : option Q;
  total_services : option Q;
  total_income : option Q;
  total_expenses : option Q;
  net_profit : option Q
}.

(** [{}], the object used when the procedure returns no row. *)
Definition emptyRpcRow : RpcRow :=
  mkRpcRow None None None None None None None None None.

(** A row of [vw_transaction_details] (tier 3 and the breakdown).  The
    date column is a day number. *)
Record RawRecord := mkRawRecord {
  operation_date_msk : option Z;
  posting_number : option string;
  operation_type_name : option string;
  item_amount : option Q;
  accruals_for_sale : option Q;
  sale_commission : option Q;
  delivery_charge : option Q;
  return_delivery_charge : option Q
}.


(** ** Tier 3: categorisation of the raw transaction rows *)

(** The six running totals of the [forEach] loop. *)
Record Totals := mkTotals {
  totalSales : Q;
  totalCommissions : Q;
  totalDelivery : Q;
  totalReturns : Q;
  totalAds : Q;
  totalServices : Q
}.

Definition zeroTotals : Totals := mkTotals 0 0 0 0 0 0.

(** The keyword tests of the loop body, on the lower-cased operation type. *)
Definition kw_sales (op : string) : bool :=
  includes op "продаж" || includes op "sale" ||
  includes op "оплат" || includes op "payment".

Definition kw_commissions (op : string) : bool :=
  includes op "комисс" || includes op "commission" ||
  includes op "сбор" || includes op "fee".

Definition kw_delivery (op : string) : bool :=
  includes op "доставк" || includes op "delivery" ||
  includes op "логистик" || includes op "shipping".

Definition kw_returns (op : string) : bool :=
  includes op "возврат" || includes op "return" ||
  includes op "отмен" || includes op "cancel".

Definition kw_ads (op : string) : bool :=
  includes op "реклам" || includes op "ads" ||
  includes op "продвиж" || includes op "promotion".

Definition kw_services (op : string) : bool :=
  includes op "услуг" || includes op "service" ||
  includes op "обслуж" || includes op "processing".

(** The guard inside the services rule ("exclude already categorized
    delivery services"). *)
Definition not_delivery_service (op : string) : bool :=
  negb (includes op "доставк") && negb (includes op "delivery").

(** The guard of the final catch-all [if]. *)
Definition catch_all (amount accrualsForSale saleCommission deliveryCharge
                      returnDeliveryCharge : Q) (op : string) : bool :=
  Qgtb amount 0 && Qeq_bool accrualsForSale 0 && Qeq_bool saleCommission 0 &&
  Qeq_bool deliveryCharge 0 && Qeq_bool returnDeliveryCharge 0 &&
  negb (includes op "продаж") && negb (includes op "sale") &&
  negb (includes op "комисс") && negb (includes op "commission") &&
  negb (includes op "доставк") && negb (includes op "delivery") &&
  negb (includes op "возврат") && negb (includes op "return") &&
  negb (includes op "реклам") && negb (includes op "ads").

(** [item.operation_type_name?.toLowerCase() || ''] *)
Definition operationType (item : RawRecord) : string :=
  match operation_type_name item with
  | Some s => toLowerCase s
  | None => ""
  end.

(** One iteration of [(transactionData || []).forEach(item => ...)]: the
    totals after the body has run on [item]. *)
Definition categorize (t : Totals) (item : RawRecord) : Totals :=
  let accrualsForSale := or0 (toNumber (accruals_for_sale item)) in
  let saleCommission := or0 (abs (toNumber (sale_commission item))) in
  let deliveryCharge := or0 (abs (toNumber (delivery_charge item))) in
  let returnDeliveryCharge := or0 (abs (toNumber (return_delivery_charge item))) in
  let amount := or0 (abs (toNumber (item_amount item))) in
  let op := operationType item in
  (* Sales *)
  let sales' :=
    if Qgtb accrualsForSale 0 then totalSales t + accrualsForSale
    else if kw_sales op then totalSales t + amount
    else totalSales t in
  (* Commissions *)
  let commissions' :=
    if Qgtb saleCommission 0 then totalCommissions t + saleCommission
    else if kw_commissions op then totalCommissions t + amount
    else totalCommissions t in
  (* Delivery *)
  let delivery' :=
    if Qgtb deliveryCharge 0 then totalDelivery t + deliveryCharge
    else if kw_delivery op then totalDelivery t + amount
    else totalDelivery t in
  (* Returns *)
  let returns' :=
    if Qgtb returnDeliveryCharge 0 then totalReturns t + returnDeliveryCharge
    else if kw_returns op then totalReturns t + amount
    else totalReturns t in
  (* Ads *)
  let ads' :=
    if kw_ads op then totalAds t + amount else totalAds t in
  (* Services *)
  let services' :=
    if kw_services op then
      if not_delivery_service op then totalServices t + amount
      else totalServices t
    else totalServices t in
  (* Catch-all *)
  let services'' :=
    if catch_all amount accrualsForSale saleCommission deliveryCharge
         returnDeliveryCharge op
    then services' + amount
    else services' in
  mkTotals sales' commissions' delivery' returns' ads' services''.

(** [transactionData || []] *)
Definition orEmpty {A} (data : option (list A)) : list A :=
  match data with
  | Some l => l
  | None => []
  end.

(** The totals when the loop is over. *)
Definition categorizeAll (transactionData : option (list RawRecord)) : Totals :=
  fold_left categorize (orEmpty transactionData) zeroTotals.

Definition allZero (t : Totals) : bool :=
  Qeq_bool (totalSales t) 0 && Qeq_bool (totalCommissions t) 0 &&
  Qeq_bool (totalDelivery t) 0 && Qeq_bool (totalReturns t) 0 &&
  Qeq_bool (totalAds t) 0 && Qeq_bool (totalServices t) 0.

(** "Ensure minimum values for demonstration if all categories are zero". *)
Definition ensureMinimum (t : Totals) : Totals :=
  if allZero t then mkTotals 10000 1500 800 200 300 500 else t.

(** The summary object of tier 3. *)
Definition summaryOfTotals (t : Totals) : FinanceSummary :=
  {| sales := totalSales t;
     commissions := totalCommissions t;
     delivery := totalDelivery t;
     returns := totalReturns t;
     ads := totalAds t;
     services := totalServices t;
     totalIncome := totalSales t;
     totalExpenses := totalCommissions t + totalDelivery t + totalReturns t
                      + totalAds t + totalServices t;
     netProfit := totalSales t - (totalCommissions t + totalDelivery t
                      + totalReturns t + totalAds t + totalServices t) |}.

(** ** The category list *)

(** [Object.entries(summary)]: own properties in insertion order. *)
Definition entries (s : FinanceSummary) : list (string * Q) :=
  [ ("sales", sales s); ("commissions", commissions s); ("delivery", delivery s);
    ("returns", returns s); ("ads", ads s); ("services", services s);
    ("totalIncome", totalIncome s); ("totalExpenses", totalExpenses s);
    ("netProfit", netProfit s) ].

(** [CATEGORY_LABELS[key]] for a key known to be in the table. *)
Definition propOr (obj : list (string * string)) (key : string) : string :=
  match prop obj key with Some v => v | None => "" end.

(** The callback of [Object.entries(summary).forEach] in tiers 1 and 3:
    what it pushes for one entry ([value !== 0]). *)
Definition pushCategory (total : Q) (kv : string * Q) : list FinanceCategory :=
  let '(key, value) := kv in
  if has_key CATEGORY_COLORS key && negb (Qeq_bool value 0) then
    let amount := if String.eqb key "sales" then value else abs value in
    [ {| category := propOr CATEGORY_LABELS key;
         amount := amount;
         percentage := if Qgtb total 0 then (amount / total) * 100 else 0;
         color := propOr CATEGORY_COLORS key |} ]
  else [].

(** The array [categories] before it is sorted. *)
Definition buildCategories (s : FinanceSummary) : list FinanceCategory :=
  let total := totalIncome s + totalExpenses s in
  flat_map (pushCategory total) (entries s).

(** [Array.prototype.sort] is stable (ECMAScript 2019), so with a
    consistent comparator its result is the one of a stable insertion
    sort.  [after x y] says that [x] has to come after [y]. *)
Section Sort.
Context {A : Type} (after : A -> A -> bool).

Fixpoint insert (x : A) (l : list A) : list A :=
  match l with
  | [] => [x]
  | y :: l' => if after x y then y :: insert x l' else x :: l
  end.

Definition sort (l : list A) : list A := fold_right insert [] l.
End Sort.

(** [arr.sort(cmp)]: [a] comes after [b] when [cmp(a, b) > 0]. *)
Definition jsSort {A} (cmp : A -> A -> Q) (arr : list A) : list A :=
  sort (fun a b => Qgtb (cmp a b) 0) arr.

(** [(a, b) => b.amount - a.amount] *)
Definition byAmountDesc (a b : FinanceCategory) : Q := amount b - amount a.

(** [{ summary, categories: categories.sort((a, b) => b.amount - a.amount) }] *)
Definition withCategories (s : FinanceSummary) : FinanceData :=
  {| summary := s; categories := jsSort byAmountDesc (buildCategories s) |}.

(** The whole of tier 3 after the rows have arrived. *)
Definition tier3 (transactionData : option (list RawRecord)) : FinanceData :=
  withCategories (summaryOfTotals (ensureMinimum (categorizeAll transactionData))).

(** ** Tier 1: the [dashboard_summary] view *)

(** [summaryData?.reduce((sum, item) => sum + toNumber(item.f), 0) || 0] *)
Definition sumField (f : SummaryRow -> option Q)
                    (summaryData : option (list SummaryRow)) : Q :=
  match summaryData with
  | Some rows => or0 (fold_left (fun sum item => sum + toNumber (f item)) rows 0)
  | None => 0
  end.

Definition tier1 (summaryData : option (list SummaryRow)) : FinanceData :=
  let totalRevenue := sumField total_revenue summaryData in
  let totalCommissions := sumField total_commission summaryData in
  let totalServiceCosts := sumField total_service_costs summaryData in
  let totalPayout := sumField total_payout summaryData in
  withCategories
    {| sales := totalRevenue;
       commissions := totalCommissions;
       delivery := totalServiceCosts * 0.3;
       returns := 0;
       ads := 0;
       services := totalServiceCosts * 0.7;
       totalIncome := totalRevenue;
       totalExpenses := totalCommissions + totalServiceCosts;
       netProfit := totalPayout |}.

(** ** Tier 2: the [get_finance_summary] procedure *)

(** [data?.[0] || {}] *)
Definition firstRow (data : option (list RpcRow)) : RpcRow :=
  match data with
  | Some rows => match first rows with Some r => r | None => emptyRpcRow end
  | None => emptyRpcRow
  end.

Definition tier2 (data : option (list RpcRow)) : FinanceData :=
  let result := firstRow data in
  {| summary :=
       {| sales := or0 (toNumber (total_sales result));
          commissions := or0 (toNumber (total_commissions result));
          delivery := or0 (toNumber (total_delivery result));
          returns := or0 (toNumber (total_returns result));
          ads := or0 (toNumber (total_ads result));
          services := or0 (toNumber (total_services result));
          totalIncome := or0 (toNumber (total_income result));
          totalExpenses := or0 (toNumber (total_expenses result));
          netProfit := or0 (toNumber (net_profit result)) |};
     categories := [] |}.

(** ** The fallback chain of [useFinanceData] *)

(** What a rejected query carries. *)
Inductive Error := mkError (message : string).

(** [{ data, error }], as the client resolves a query. *)
Record Response (A : Type) := mkResponse {
  data : option A;
  error : option Error
}.
Arguments mkResponse {A}.
Arguments data {A}.
Arguments error {A}.

(** The three sources the hook reads, answered for the active filters. *)
Record Supabase := mkSupabase {
  dashboard_summary : Response (list SummaryRow);
  get_finance_summary : Response (list RpcRow);
  vw_transaction_details : Response (list RawRecord)
}.

Inductive Source := DashboardSummary | GetFinanceSummary | VwTransactionDetails.

(** What an observer of one run of [queryFn] sees besides its result. *)
Inductive Event :=
| Await (s : Source)
| ConsoleWarn (s : Source).

Inductive Outcome (A : Type) :=
| Resolved (a : A)
| Rejected (e : Error).
Arguments Resolved {A}.
Arguments Rejected {A}.

(** An [async] computation: it extends the trace of events and either
    resolves or rejects. *)
Module Async.

Definition t (A : Type) : Type := list Event -> Outcome A * list Event.

Definition ret {A} (a : A) : t A := fun tr => (Resolved a, tr).

Definition throw {A} (e : Error) : t A := fun tr => (Rejected e, tr).

Definition bind {A B} (m : t A) (k : A -> t B) : t B :=
  fun tr =>
    match m tr with
    | (Resolved a, tr') => k a tr'
    | (Rejected e, tr') => (Rejected e, tr')
    end.

(** [try { m } catch (e) { handler }] *)
Definition tryCatch {A} (m : t A) (handler : Error -> t A) : t A :=
  fun tr =>
    match m tr with
    | (Resolved a, tr') => (Resolved a, tr')
    | (Rejected e, tr') => handler e tr'
    end.

Definition emit (ev : Event) : t unit := fun tr => (Resolved tt, (tr ++ [ev])%list).

(** [await] of a query: the call is observed, the response comes back. *)
Definition await {A} (s : Source) (r : Response A) : t (Response A) :=
  bind (emit (Await s)) (fun _ => ret r).

Definition run {A} (m : t A) : Outcome A * list Event := m [].

End Async.

Declare Scope async_scope.
Notation "x <- m ;; k" := (Async.bind m (fun x => k))
  (at level 61, m at next level, right associativity) : async_scope.
Notation "m ;;; k" := (Async.bind m (fun _ => k))
  (at level 61, right associativity) : async_scope.
Local Open Scope async_scope.

(** [queryFn] of [useFinanceData]. *)
Definition queryFn (supabase : Supabase) : Async.t FinanceData :=
  Async.tryCatch
    (r <- Async.await DashboardSummary (dashboard_summary supabase) ;;
     match error r with
     | Some summaryError =>
         Async.emit (ConsoleWarn DashboardSummary) ;;;
         Async.throw summaryError
     | None => Async.ret (tier1 (data r))
     end)
    (fun summaryError =>
       Async.tryCatch
         (r <- Async.await GetFinanceSummary (get_finance_summary supabase) ;;
          match error r with
          | Some e => Async.throw e
          | None => Async.ret (tier2 (data r))
          end)
         (fun rpcError =>
            Async.emit (ConsoleWarn GetFinanceSummary) ;;;
            r <- Async.await VwTransactionDetails (vw_transaction_details supabase) ;;
            match error r with
            | Some transactionError => Async.throw transactionError
            | None => Async.ret (tier3 (data r))
            end)).

(** ** [useFinanceBreakdown] *)

(** The part of the query the database evaluates:
    [.gte(col, from).lte(col, to).order(col, { ascending: false }).limit(100)].
    A null date satisfies neither comparison.  The order of rows with the
    same date is the database's choice; the model keeps the table's. *)
Section Select.
Context {R : Type} (dateOf : R -> option Z).

Definition inRange (dateFrom dateTo : Z) (item : R) : bool :=
  match dateOf item with
  | Some d => (dateFrom <=? d)%Z && (d <=? dateTo)%Z
  | None => false
  end.

(** [a] is listed after [b] when it is older. *)
Definition older (a b : R) : bool :=
  match dateOf a, dateOf b with
  | Some da, Some db => (da <? db)%Z
  | _, _ => false
  end.

Definition select (table : list R) (dateFrom dateTo : Z) : list R :=
  firstn 100 (sort older (filter (inRange dateFrom dateTo) table)).
End Select.

Module Breakdown.

(** [item.posting_number] of a raw row (the projected row below has a
    property of the same name). *)
Definition itemPostingNumber (item : RawRecord) : option string :=
  posting_number item.

Record Row := mkRow {
  date_msk : Z;
  posting_number : string;
  sales : Q;
  commissions : Q;
  delivery : Q;
  returns : Q;
  ads : Q;
  services : Q;
  net_profit : Q;
  operation_type : option string
}.

(** The callback of [(data || []).map]; [today] stands for
    [formatMoscowDate(new Date())]. *)
Definition project (today : Z) (item : RawRecord) : Row :=
  {| date_msk := match operation_date_msk item with Some d => d | None => today end;
     posting_number :=
       match itemPostingNumber item with
       | Some p => if String.eqb p "" then "N/A" else p
       | None => "N/A"
       end;
     sales := or0 (toNumber (accruals_for_sale item));
     commissions := or0 (abs (toNumber (sale_commission item)));
     delivery := or0 (abs (toNumber (delivery_charge item)));
     returns := or0 (abs (toNumber (return_delivery_charge item)));
     ads := 0;
     services := or0 (abs (toNumber (item_amount item)));
     net_profit := or0 (toNumber (item_amount item));
     operation_type := operation_type_name item |}.

(** [queryFn] of [useFinanceBreakdown], once the response is there. *)
Definition queryFn (today : Z) (r : Response (list RawRecord)) : Outcome (list Row) :=
  match error r with
  | Some e => Rejected e
  | None => Resolved (map (project today) (orEmpty (data r)))
  end.

(** The hook run against a table of [vw_transaction_details]. *)
Definition useFinanceBreakdown (today : Z) (table : list RawRecord)
                               (dateFrom dateTo : Z) : Outcome (list Row) :=
  queryFn today
    (mkResponse (Some (select operation_date_msk table dateFrom dateTo)) None).

End Breakdown.

(** The variant of the module that reads the [transactions] table. *)
Module Transactions.

(** A row of [transactions]. *)
Record Transaction := mkTransaction {
  operation_date : option Z;
  posting_number : option string;
  operation_type_name : option string;
  amount : option Q
}.

(** [item.operation_type_name?.toLowerCase().includes('delivery')] as a
    condition. *)
Definition deliveryTagged (item : Transaction) : bool :=
  match operation_type_name item with
  | Some s => includes (toLowerCase s) "delivery"
  | None => false
  end.

(** The callback of [(data || []).map] in this variant. *)
Definition project (item : Transaction) : Breakdown.Row :=
  {| Breakdown.date_msk := match operation_date item with Some d => d | None => 0%Z end;
     Breakdown.posting_number :=
       match posting_number item with
       | Some p => if String.eqb p "" then "N/A" else p
       | None => "N/A"
       end;
     Breakdown.sales := 0;
     Breakdown.commissions := 0;
     Breakdown.delivery :=
       if deliveryTagged item then abs (toNumber (amount item)) else 0;
     Breakdown.returns := 0;
     Breakdown.ads := 0;
     Breakdown.services :=
       if negb (deliveryTagged item) then abs (toNumber (amount item)) else 0;
     Breakdown.net_profit := or0 (toNumber (amount item));
     Breakdown.operation_type := operation_type_name item |}.

Definition queryFn (r : Response (list Transaction)) : Outcome (list Breakdown.Row) :=
  match error r with
  | Some e => Rejected e
  | None => Resolved (map project (orEmpty (data r)))
  end.

Definition useFinanceBreakdown (table : list Transaction)
                               (dateFrom dateTo : Z) : Outcome (list Breakdown.Row) :=
  queryFn (mkResponse (Some (select operation_date table dateFrom dateTo)) None).

End Transactions.

(** ** Vocabulary of the statements *)

(** The six buckets, in the order of the keys of [FinanceSummary]. *)
Inductive Bucket := Sales | Commissions | Delivery | Returns | Ads | Services.



(** The running total of a bucket. *)
Definition total (b : Bucket) (t : Totals) : Q :=
  match b with
  | Sales => totalSales t
  | Commissions => totalCommissions t
  | Delivery => totalDelivery t
  | Returns => totalReturns t
  | Ads => totalAds t
  | Services => totalServices t
  end.

(** The condition under which the loop body adds to a bucket: the guards
    of the [if] statements of [categorize], bucket by bucket. *)
Definition rule (b : Bucket) (item : RawRecord) : bool :=
  let accrualsForSale := or0 (toNumber (accruals_for_sale item)) in
  let saleCommission := or0 (abs (toNumber (sale_commission item))) in
  let deliveryCharge := or0 (abs (toNumber (delivery_charge item))) in
  let returnDeliveryCharge := or0 (abs (toNumber (return_delivery_charge item))) in
  let amount := or0 (abs (toNumber (item_amount item))) in
  let op := operationType item in
  match b with
  | Sales => Qgtb accrualsForSale 0 || kw_sales op
  | Commissions => Qgtb saleCommission 0 || kw_commissions op
  | Delivery => Qgtb deliveryCharge 0 || kw_delivery op
  | Returns => Qgtb returnDeliveryCharge 0 || kw_returns op
  | Ads => kw_ads op
  | Services =>
      (kw_services op && not_delivery_service op) ||
      catch_all amount accrualsForSale saleCommission deliveryCharge
        returnDeliveryCharge op
  end.

(** Every running total is non-negative. *)
Definition nonneg (t : Totals) : Prop :=
  0 <= totalSales t /\ 0 <= totalCommissions t /\ 0 <= totalDelivery t /\
  0 <= totalReturns t /\ 0 <= totalAds t /\ 0 <= totalServices t.





(** Position of a label in the enumeration of [CATEGORY_LABELS]. *)
Fixpoint indexOf (x : string) (l : list string) : nat :=
  match l with
  | [] => 0
  | y :: l' => if String.eqb x y then 0 else S (indexOf x l')
  end.

Definition labelRank (label : string) : nat :=
  indexOf label (map snd CATEGORY_LABELS).

(** [a] may stand before [b] in a category list: larger amount first, and
    on equal amounts the earlier category of the enumeration first. *)
Definition precedes (a b : FinanceCategory) : Prop :=
  amount b < amount a \/
  (amount a == amount b /\ (labelRank (category a) < labelRank (category b))%nat).


Definition allZeroSummary (s : FinanceSummary) : Prop :=
  sales s == 0 /\ commissions s == 0 /\ delivery s == 0 /\ returns s == 0 /\
  ads s == 0 /\ services s == 0 /\ totalIncome s == 0 /\ totalExpenses s == 0 /\
  netProfit s == 0.


(** The traces of a run answered by tier 1, by tier 2, and reaching tier 3. *)
Definition traceTier1 : list Event := [Await DashboardSummary].

Definition traceTier2 : list Event :=
  [Await DashboardSummary; ConsoleWarn DashboardSummary; Await GetFinanceSummary].

Definition traceTier3 : list Event :=
  [Await DashboardSummary; ConsoleWarn DashboardSummary; Await GetFinanceSummary;
   ConsoleWarn GetFinanceSummary; Await VwTransactionDetails].

(** A bucket of a summary, its key and its label. *)
Definition value (b : Bucket) (s : FinanceSummary) : Q :=
  match b with
  | Sales => sales s
  | Commissions => commissions s
  | Delivery => delivery s
  | Returns => returns s
  | Ads => ads s
  | Services => services s
  end.

Definition key (b : Bucket) : string :=
  match b with
  | Sales => "sales"
  | Commissions => "commissions"
  | Delivery => "delivery"
  | Returns => "returns"
  | Ads => "ads"
  | Services => "services"
  end.

Definition label (b : Bucket) : string := propOr CATEGORY_LABELS (key b).

(** What the callback pushes for the entry of bucket [b]. *)
Definition pushBucket (s : FinanceSummary) (b : Bucket) : list FinanceCategory :=
  pushCategory (totalIncome s + totalExpenses s) (key b, value b s).

(** Descending dates of breakdown rows. *)
Definition notOlder (a b : Breakdown.Row) : Prop :=
  (Breakdown.date_msk b <= Breakdown.date_msk a)%Z.

(** The entry [c] is the one the callback builds for bucket [b] of [s]:
    the bucket's label, its value (its absolute value for an expense
    bucket) and the share of [totalIncome + totalExpenses], which is 0
    unless that total is positive. *)
Definition builtFrom (s : FinanceSummary) (b : Bucket) (c : FinanceCategory) : Prop :=
  category c = label b /\
  amount c = match b with Sales => value b s | _ => abs (value b s) end /\
  (0 < totalIncome s + totalExpenses s ->
   percentage c == amount c / (totalIncome s + totalExpenses s) * 100) /\
  (totalIncome s + totalExpenses s <= 0 -> percentage c == 0).

(** The category list of [d] has one entry for each bucket of the summary
    whose value is not 0, and no other entry. *)
Definition listsNonZeroBuckets (d : FinanceData) : Prop :=
  (forall c, In c (categories d) ->
     exists b, ~ value b (summary d) == 0 /\ builtFrom (summary d) b c) /\
  (forall b, ~ value b (summary d) == 0 ->
     exists c, In c (categories d) /\ builtFrom (summary d) b c).

(** A tier-1 answer with a negative commission total, as the view stores
    a charge. *)
Definition negativeCommission : list SummaryRow :=
  [ mkSummaryRow (Some 1000) (Some (-150)) None None ].





(** A row with sales and a commission at once, a row with every signal,
    and a delivery service named by a keyword the services rule does not
    test. *)
Definition saleWithCommission : RawRecord :=
  mkRawRecord None None None None (Some 1000) (Some (-150)) None None.


Definition shippingService : RawRecord :=
  mkRawRecord None None (Some "Shipping service") (Some 10) None None None None.


(** A row of the view that is a delivery charge, by its operation type
    and by its [delivery_charge]. *)
Definition deliveryRow : RawRecord :=
  mkRawRecord (Some 10%Z) (Some "P-1") (Some "Delivery") (Some (-80))
              None None (Some (-50)) None.

(** Dated rows, the later one first. *)
Definition newestFirst {R : Type} (dateOf : R -> option Z) (a b : R) : Prop :=
  exists da db, dateOf a = Some da /\ dateOf b = Some db /\ (db <= da)%Z.

(** A percentage rounded to one decimal, in tenths. *)
Definition tenths (q : Q) : Z := Qfloor (q * 10 + (1 # 2)).

(** The rows of the worked example of the specification. *)
Definition exampleRows : list RawRecord :=
  [ mkRawRecord None None None None (Some 1000) None None None;
    mkRawRecord None None None None None (Some (-150)) None None;
    mkRawRecord None None (Some "Доставка") (Some 80) None None None None ].

Definition unavailable {A} (msg : string) : Response A :=
  mkResponse None (Some (mkError msg)).

Definition available {A} (rows : A) : Response A :=
  mkResponse (Some rows) None.

(** A backend on which only the transaction view answers. *)
Definition onlyTransactions (rows : list RawRecord) : Supabase :=
  mkSupabase (unavailable "relation dashboard_summary does not exist")
             (unavailable "function get_finance_summary does not exist")
             (available rows).

(** A tier-2 answer whose income differs from its sales. *)
Definition rpcMismatch : Supabase :=
  mkSupabase (unavailable "relation dashboard_summary does not exist")
             (available [ mkRpcRow (Some 100) None None None None None None None None ])
             (unavailable "unused").

(** ** The variant of [useFinanceData] on the [postings] table *)

Module Postings.

(** [filters.dateType], the key read in [item.raw]. *)
Inductive DateType := ship_date | delivery_date | order_date.

(** A row of [postings].  [raw] gives, for a date column, the day of
    [new Date(value).toISOString().split('T')[0]]; days are numbers, whose
    order is the one of the [YYYY-MM-DD] strings the code compares. *)
Record Posting := mkPosting {
  price : option Q;
  qty : option Q;
  payout : option Q;
  commission_product : option Q;
  raw : option (DateType -> option Z)
}.

(** The callback of [(revenueData || []).filter]. *)
Definition inPeriod (dateColumn : DateType) (startDate endDate : Z)
                    (item : Posting) : bool :=
  match raw item with
  | None => false
  | Some r =>
      match r dateColumn with
      | None => false
      | Some itemDate => (startDate <=? itemDate)%Z && (itemDate <=? endDate)%Z
      end
  end.

(** [item.qty || 1] *)
Definition qtyOr1 (item : Posting) : Q :=
  match qty item with
  | Some q => if Qeq_bool q 0 then 1 else q
  | None => 1
  end.

Definition totalRevenue (filteredData : list Posting) : Q :=
  fold_left (fun sum item => sum + toNumber (price item) * qtyOr1 item) filteredData 0.

Definition totalPayout (filteredData : list Posting) : Q :=
  fold_left (fun sum item => sum + toNumber (payout item)) filteredData 0.

Definition totalCommissions (filteredData : list Posting) : Q :=
  fold_left (fun sum item => sum + abs (toNumber (commission_product item)))
            filteredData 0.

(** The test of the service loop: [toLowerCase().includes('delivery')], or
    the name as it is [includes('доставка')]. *)
Definition isDelivery (item : Transactions.Transaction) : bool :=
  match Transactions.operation_type_name item with
  | Some name => includes (toLowerCase name) "delivery" || includes name "доставка"
  | None => false
  end.

(** One iteration of the service loop on [(deliveryCosts, otherServiceCosts)]. *)
Definition addService (costs : Q * Q) (item : Transactions.Transaction) : Q * Q :=
  let amount := abs (toNumber (Transactions.amount item)) in
  if isDelivery item then (fst costs + amount, snd costs)
  else (fst costs, snd costs + amount).

Definition serviceCosts (serviceData : option (list Transactions.Transaction)) : Q * Q :=
  fold_left addService (orEmpty serviceData) (0, 0).

(** The callback of [Object.entries(summary).forEach] in this variant
    ([value > 0]). *)
Definition pushCategory (total : Q) (kv : string * Q) : list FinanceCategory :=
  let '(key, value) := kv in
  if has_key CATEGORY_COLORS key && Qgtb value 0 then
    let amount := if String.eqb key "sales" then value else abs value in
    [ {| category := propOr CATEGORY_LABELS key;
         amount := amount;
         percentage := if Qgtb total 0 then (amount / total) * 100 else 0;
         color := propOr CATEGORY_COLORS key |} ]
  else [].

Definition buildCategories (s : FinanceSummary) : list FinanceCategory :=
  let total := totalIncome s + totalExpenses s in
  flat_map (pushCategory total) (entries s).

(** What [queryFn] computes once both responses are there. *)
Definition result (dateColumn : DateType) (startDate endDate : Z)
                  (revenueData : option (list Posting))
                  (serviceData : option (list Transactions.Transaction)) : FinanceData :=
  let filteredData := filter (inPeriod dateColumn startDate endDate) (orEmpty revenueData) in
  let deliveryCosts := fst (serviceCosts serviceData) in
  let otherServiceCosts := snd (serviceCosts serviceData) in
  let s :=
    {| sales := totalRevenue filteredData;
       commissions := totalCommissions filteredData;
       delivery := deliveryCosts;
       returns := 0;
       ads := 0;
       services := otherServiceCosts;
       totalIncome := totalRevenue filteredData;
       totalExpenses := totalCommissions filteredData + deliveryCosts + otherServiceCosts;
       netProfit := totalPayout filteredData |} in
  {| summary := s; categories := jsSort byAmountDesc (buildCategories s) |}.

(** What [new Date(value)] makes of the value of a date column: a date,
    given by the day of its [toISOString()], or an invalid date, on which
    [toISOString()] throws a [RangeError]. *)
Inductive DateValue := Day (d : Z) | InvalidDate.

(** A row of [postings] as the query returns it, before any date is
    parsed. *)
Module Raw.
Record Posting := mkPosting {
  price : option Q;
  qty : option Q;
  payout : option Q;
  commission_product : option Q;
  raw : option (DateType -> option DateValue)
}.
End Raw.

(** The [RangeError] of [toISOString()]. *)
Definition rangeError : Error := mkError "Invalid time value".

(** The filter callback throws on this row: [raw] is there, the date of
    the column is there, and it does not parse. *)
Definition throwsOn (dateColumn : DateType) (item : Raw.Posting) : bool :=
  match Raw.raw item with
  | Some r =>
      match r dateColumn with
      | Some InvalidDate => true
      | _ => false
      end
  | None => false
  end.

(** The row with its dates read; on a row that does not throw, the
    callback [inPeriod] of the filter sees exactly this. *)
Definition parsed (item : Raw.Posting) : Posting :=
  {| price := Raw.price item;
     qty := Raw.qty item;
     payout := Raw.payout item;
     commission_product := Raw.commission_product item;
     raw := match Raw.raw item with
            | Some r => Some (fun c => match r c with
                                       | Some (Day d) => Some d
                                       | _ => None
                                       end)
            | None => None
            end |}.

(** [queryFn]: the postings query, whose error rejects the run; the
    filter on the dates, which rejects the run with a [RangeError] at a
    date that does not parse; the transactions query, whose error rejects
    the run; then the result. *)
Definition queryFn (dateColumn : DateType) (startDate endDate : Z)
                   (revenue : Response (list Raw.Posting))
                   (service : Response (list Transactions.Transaction))
  : Outcome FinanceData :=
  match error revenue with
  | Some revenueError => Rejected revenueError
  | None =>
      let revenueData := orEmpty (data revenue) in
      if existsb (throwsOn dateColumn) revenueData then Rejected rangeError
      else
        match error service with
        | Some serviceError => Rejected serviceError
        | None =>
            Resolved (result dateColumn startDate endDate
                             (Some (map parsed revenueData)) (data service))
        end
  end.

End Postings.

(** ** The finance page and the pie chart *)

(** The value of the profitability card of [FinancePage]:
    [data?.summary.totalIncome > 0 ? netProfit / totalIncome * 100 : 0]. *)
Definition profitability (d : option FinanceData) : Q :=
  match d with
  | Some d =>
      if Qgtb (totalIncome (summary d)) 0
      then (netProfit (summary d) / totalIncome (summary d)) * 100
      else 0
  | None => 0
  end.

(** What [useFinanceData()] hands to the chart. *)
Record QueryResult := mkQueryResult {
  queryData : option FinanceData;
  isLoading : bool;
  queryError : option Error
}.

(** What [FinancePieChart] renders: the spinner, the error message with
    its retry, the "no data" text, or the chart with the label and the
    fill of every slice. *)
Inductive View :=
| LoadingSpinner
| ErrorMessage
| NoData
| Chart (labels : list (option Q)) (fills : list string).

(** [renderCustomLabel]: no label under 5 %, otherwise the percentage, to
    be formatted. *)
Definition renderCustomLabel (entry : FinanceCategory) : option Q :=
  if Qgtb 5 (percentage entry) then None else Some (percentage entry).

Definition FinancePieChart (q : QueryResult) : View :=
  if isLoading q then LoadingSpinner
  else match queryError q with
       | Some _ => ErrorMessage
       | None =>
           match queryData q with
           | None => NoData
           | Some d =>
               if Nat.eqb (List.length (categories d)) 0 then NoData
               else Chart (map renderCustomLabel (categories d))
                          (map color (categories d))
           end
       end.

(** The chart once the query has settled on [d]. *)
Definition settled (d : FinanceData) : QueryResult :=
  mkQueryResult (Some d) false None.

(** ** The regions page *)

Module Regions.

(** The keys of [RegionPerformance] the page sorts by.  The type comes
    from [hooks/useRegionsData]; the row is taken as the page reads it: the
    name of the region and a number (or nothing) under each key. *)
Inductive Column := region | orders | units | gmv | revenue | netProfit | avgOrderValue.

Inductive SortOrder := asc | desc.

Record RegionPerformance := mkRegion {
  name : string;
  numbers : Column -> option Q
}.

Definition Column_eqb (a b : Column) : bool :=
  match a, b with
  | region, region | orders, orders | units, units | gmv, gmv
  | revenue, revenue | netProfit, netProfit | avgOrderValue, avgOrderValue => true
  | _, _ => false
  end.

(** The state of the two [useState] hooks. *)
Record SortState := mkSortState {
  sortBy : Column;
  sortOrder : SortOrder
}.

(** [useState('revenue')], [useState('desc')] *)
Definition initialState : SortState := mkSortState revenue desc.

(** [handleSort] *)
Definition handleSort (column : Column) (st : SortState) : SortState :=
  if Column_eqb (sortBy st) column then
    mkSortState (sortBy st) (match sortOrder st with asc => desc | desc => asc end)
  else mkSortState column desc.

(** [getSortIcon] *)
Definition getSortIcon (st : SortState) (column : Column) : string :=
  if negb (Column_eqb (sortBy st) column) then "↕️"
  else match sortOrder st with asc => "⬆️" | desc => "⬇️" end.

(** [Number(v) || 0] *)
Definition numberOr0 (v : option Q) : Q :=
  or0 (match v with Some q => q | None => 0 end).

Section Compare.
(** [String.prototype.localeCompare(other, 'ru')], the collation of the
    host. *)
Variable localeCompare : string -> string -> Q.

(** The comparator of [sortedData]: the name is the one string column. *)
Definition compareRows (st : SortState) (a b : RegionPerformance) : Q :=
  match sortBy st with
  | region =>
      match sortOrder st with
      | asc => localeCompare (name a) (name b)
      | desc => localeCompare (name b) (name a)
      end
  | column =>
      let aNum := numberOr0 (numbers a column) in
      let bNum := numberOr0 (numbers b column) in
      match sortOrder st with
      | asc => aNum - bNum
      | desc => bNum - aNum
      end
  end.

(** [sortedData] *)
Definition sortedData (regionsData : option (list RegionPerformance))
                      (st : SortState) : list RegionPerformance :=
  match regionsData with
  | None => []
  | Some rows => jsSort (compareRows st) rows
  end.
End Compare.

End Regions.

(** ** Vocabulary of the further statements *)

(** Sum of a quantity over a list. *)
Definition sumOf {A} (f : A -> Q) (l : list A) : Q :=
  fold_right (fun x acc => f x + acc) 0 l.

(** What one row adds to a bucket. *)
Definition contribution (b : Bucket) (item : RawRecord) : Q :=
  total b (categorize zeroTotals item).

(** A row with the signs of its four magnitudes turned. *)
Definition flipSigns (item : RawRecord) : RawRecord :=
  {| operation_date_msk := operation_date_msk item;
     posting_number := posting_number item;
     operation_type_name := operation_type_name item;
     item_amount := option_map Qopp (item_amount item);
     accruals_for_sale := accruals_for_sale item;
     sale_commission := option_map Qopp (sale_commission item);
     delivery_charge := option_map Qopp (delivery_charge item);
     return_delivery_charge := option_map Qopp (return_delivery_charge item) |}.

(** Two summaries with the same numbers. *)
Definition sameSummary (s s' : FinanceSummary) : Prop :=
  (forall b, value b s == value b s') /\
  totalIncome s == totalIncome s' /\
  totalExpenses s == totalExpenses s' /\
  netProfit s == netProfit s'.

(** The order of two region rows under a sort state on a number column. *)
Definition inOrder (st : Regions.SortState) (a b : Regions.RegionPerformance) : Prop :=
  let num := fun x => Regions.numberOr0 (Regions.numbers x (Regions.sortBy st)) in
  match Regions.sortOrder st with
  | Regions.asc => num a <= num b
  | Regions.desc => num b <= num a
  end.


(** A services row the catch-all also takes. *)
Definition processingRow : RawRecord :=
  mkRawRecord None None (Some "Processing") (Some 10) None None None None.

Definition twoRegions : list Regions.RegionPerformance :=
  [ Regions.mkRegion "Москва"
      (fun c => match c with Regions.revenue => Some 10 | _ => None end);
    Regions.mkRegion "Казань"
      (fun c => match c with Regions.revenue => Some 30 | _ => None end) ].

(** * Properties *)

(** ** Numbers *)

Lemma Qgtb_true (a b : Q) : Qgtb a b = true <-> b < a.
Proof.
  unfold Qgtb. rewrite negb_true_iff. split; intro H.
  - apply Qnot_le_lt. intro Hle. apply Qle_bool_iff in Hle. congruence.
  - destruct (Qle_bool a b) eqn:E; [|reflexivity].
    apply Qle_bool_iff in E. lra.
Qed.

Lemma Qgtb_false (a b : Q) : Qgtb a b = false <-> a <= b.
Proof.
  unfold Qgtb. rewrite negb_false_iff. apply Qle_bool_iff.
Qed.

Lemma Qeq_bool_false (a b : Q) : Qeq_bool a b = false <-> ~ a == b.
Proof.
  split; intro H.
  - intro E. apply Qeq_eq_bool in E. congruence.
  - destruct (Qeq_bool a b) eqn:E; [|reflexivity].
    apply Qeq_bool_eq in E. contradiction.
Qed.

Lemma or0_eq (x : Q) : or0 x == x.
Proof.
  unfold or0. destruct (Qeq_bool x 0) eqn:E; [|reflexivity].
  apply Qeq_bool_eq in E. symmetry. exact E.
Qed.

Lemma or0_abs_nonneg (x : Q) : 0 <= or0 (abs x).
Proof.
  rewrite or0_eq. apply Qabs_nonneg.
Qed.

(** ** The loop of tier 3 keeps every bucket non-negative *)

(** Every bucket grows (weakly) in one iteration. *)
Lemma categorize_grows (t : Totals) (item : RawRecord) (b : Bucket) :
  total b t <= total b (categorize t item).
Proof.
  pose proof (or0_abs_nonneg (toNumber (item_amount item))) as Ha.
  pose proof (or0_abs_nonneg (toNumber (sale_commission item))) as Hc.
  pose proof (or0_abs_nonneg (toNumber (delivery_charge item))) as Hd.
  pose proof (or0_abs_nonneg (toNumber (return_delivery_charge item))) as Hr.
  destruct b; unfold categorize; cbn [total totalSales totalCommissions
    totalDelivery totalReturns totalAds totalServices].
  - destruct (Qgtb (or0 (toNumber (accruals_for_sale item))) 0) eqn:E.
    + apply Qgtb_true in E. lra.
    + destruct (kw_sales _); lra.
  - destruct (Qgtb _ 0); [lra|]. destruct (kw_commissions _); lra.
  - destruct (Qgtb _ 0); [lra|]. destruct (kw_delivery _); lra.
  - destruct (Qgtb _ 0); [lra|]. destruct (kw_returns _); lra.
  - destruct (kw_ads _); lra.
  - destruct (catch_all _ _ _ _ _ _);
      destruct (kw_services _); try destruct (not_delivery_service _); lra.
Qed.

Lemma nonneg_total (t : Totals) : nonneg t <-> forall b, 0 <= total b t.
Proof.
  unfold nonneg. split.
  - intros H b. destruct b; cbn [total]; tauto.
  - intro H. repeat split.
    + apply (H Sales).
    + apply (H Commissions).
    + apply (H Delivery).
    + apply (H Returns).
    + apply (H Ads).
    + apply (H Services).
Qed.

Lemma categorize_nonneg (t : Totals) (item : RawRecord) :
  nonneg t -> nonneg (categorize t item).
Proof.
  rewrite !nonneg_total. intros H b.
  apply Qle_trans with (total b t); [apply H | apply categorize_grows].
Qed.

Lemma fold_categorize_nonneg (rows : list RawRecord) (t : Totals) :
  nonneg t -> nonneg (fold_left categorize rows t).
Proof.
  revert t. induction rows as [|item rows IH]; intros t H; cbn [fold_left].
  - exact H.
  - apply IH, categorize_nonneg, H.
Qed.

Lemma zeroTotals_nonneg : nonneg zeroTotals.
Proof. unfold nonneg; cbn; repeat split; lra. Qed.

Lemma categorizeAll_nonneg (transactionData : option (list RawRecord)) :
  nonneg (categorizeAll transactionData).
Proof.
  apply fold_categorize_nonneg, zeroTotals_nonneg.
Qed.

Lemma ensureMinimum_nonneg (t : Totals) : nonneg t -> nonneg (ensureMinimum t).
Proof.
  intro H. unfold ensureMinimum. destruct (allZero t); [|exact H].
  unfold nonneg; cbn; repeat split; lra.
Qed.

Lemma tier3_totals_nonneg (transactionData : option (list RawRecord)) :
  nonneg (ensureMinimum (categorizeAll transactionData)).
Proof.
  apply ensureMinimum_nonneg, categorizeAll_nonneg.
Qed.

(** C10: in the tier-3 path every bucket of the returned summary is
    non-negative for every sequence of rows (a non-positive
    [accruals_for_sale] is never added to sales, every other contribution
    is an absolute value), so [sales >= 0], [totalIncome >= 0],
    [totalExpenses >= 0] and [netProfit <= totalIncome]; and no iteration
    of the loop lowers the sales total. *)
Theorem tier3_summary_nonneg :
  forall transactionData : option (list RawRecord),
    let s := summary (tier3 transactionData) in
    (0 <= sales s /\ 0 <= commissions s /\ 0 <= delivery s /\
     0 <= returns s /\ 0 <= ads s /\ 0 <= services s) /\
    0 <= totalIncome s /\ 0 <= totalExpenses s /\
    netProfit s <= totalIncome s /\
    (forall t item, totalSales t <= totalSales (categorize t item)).
Proof.
  intros transactionData s.
  destruct (tier3_totals_nonneg transactionData) as (H1 & H2 & H3 & H4 & H5 & H6).
  subst s. unfold tier3, withCategories, summaryOfTotals.
  cbn [summary sales commissions delivery returns ads services totalIncome
       totalExpenses netProfit].
  repeat split; try assumption; try lra.
  intros t item. apply (categorize_grows t item Sales).
Qed.

(** ** The fallback chain *)

(** What one run of [queryFn] does, by the errors of the three responses. *)
Lemma queryFn_run (supabase : Supabase) :
  Async.run (queryFn supabase) =
  match error (dashboard_summary supabase) with
  | None => (Resolved (tier1 (data (dashboard_summary supabase))), traceTier1)
  | Some _ =>
      match error (get_finance_summary supabase) with
      | None => (Resolved (tier2 (data (get_finance_summary supabase))), traceTier2)
      | Some _ =>
          match error (vw_transaction_details supabase) with
          | None =>
              (Resolved (tier3 (data (vw_transaction_details supabase))), traceTier3)
          | Some transactionError => (Rejected transactionError, traceTier3)
          end
      end
  end.
Proof.
  unfold traceTier1, traceTier2, traceTier3.
  cbv beta iota zeta delta [queryFn Async.run Async.tryCatch Async.bind
    Async.await Async.emit Async.ret Async.throw app].
  destruct (error (dashboard_summary supabase)); cbn; [|reflexivity].
  destruct (error (get_finance_summary supabase)); cbn; [|reflexivity].
  destruct (error (vw_transaction_details supabase)); reflexivity.
Qed.

(** A resolved run comes out of exactly one tier. *)
Lemma queryFn_resolved (supabase : Supabase) (d : FinanceData) (tr : list Event) :
  Async.run (queryFn supabase) = (Resolved d, tr) ->
  (d = tier1 (data (dashboard_summary supabase)) /\ tr = traceTier1) \/
  (d = tier2 (data (get_finance_summary supabase)) /\ tr = traceTier2) \/
  (d = tier3 (data (vw_transaction_details supabase)) /\ tr = traceTier3).
Proof.
  rewrite queryFn_run.
  destruct (error (dashboard_summary supabase)).
  - destruct (error (get_finance_summary supabase)).
    + destruct (error (vw_transaction_details supabase)); intro H; inversion H.
      right; right; split; reflexivity.
    + intro H; inversion H. right; left; split; reflexivity.
  - intro H; inversion H. left; split; reflexivity.
Qed.

(** C8: an error of tier 1 is caught and tier 2 is queried, its result
    being built from the tier-2 response alone; an error of tier 2 is
    caught and tier 3 runs to the end; an error of the tier-3 fetch is not
    caught and rejects the run; and a tier that answers is the only source
    of the result (tier 1, when it answers, is the only query made). *)
Theorem fallback_chain :
  forall supabase : Supabase,
    (error (dashboard_summary supabase) = None ->
     Async.run (queryFn supabase) =
       (Resolved (tier1 (data (dashboard_summary supabase))), traceTier1)) /\
    (forall e1,
       error (dashboard_summary supabase) = Some e1 ->
       error (get_finance_summary supabase) = None ->
       Async.run (queryFn supabase) =
         (Resolved (tier2 (data (get_finance_summary supabase))), traceTier2)) /\
    (forall e1 e2,
       error (dashboard_summary supabase) = Some e1 ->
       error (get_finance_summary supabase) = Some e2 ->
       error (vw_transaction_details supabase) = None ->
       Async.run (queryFn supabase) =
         (Resolved (tier3 (data (vw_transaction_details supabase))), traceTier3)) /\
    (forall e1 e2 e3,
       error (dashboard_summary supabase) = Some e1 ->
       error (get_finance_summary supabase) = Some e2 ->
       error (vw_transaction_details supabase) = Some e3 ->
       Async.run (queryFn supabase) = (Rejected e3, traceTier3)).
Proof.
  intro supabase. rewrite queryFn_run.
  repeat split.
  - intro H1. rewrite H1. reflexivity.
  - intros e1 H1 H2. rewrite H1, H2. reflexivity.
  - intros e1 e2 H1 H2 H3. rewrite H1, H2, H3. reflexivity.
  - intros e1 e2 e3 H1 H2 H3. rewrite H1, H2, H3. reflexivity.
Qed.

(** The chain on a backend where only the transaction view answers, and
    on one where nothing answers. *)
Lemma fallback_chain_witness :
  Async.run (queryFn (onlyTransactions exampleRows)) =
    (Resolved (tier3 (Some exampleRows)), traceTier3) /\
  Async.run (queryFn (mkSupabase (unavailable "a") (unavailable "b") (unavailable "c"))) =
    (Rejected (mkError "c"), traceTier3).
Proof.
  split.
  - apply (proj1 (proj2 (proj2 (fallback_chain (onlyTransactions exampleRows))))
             (mkError "relation dashboard_summary does not exist")
             (mkError "function get_finance_summary does not exist"));
      reflexivity.
  - apply (proj2 (proj2 (proj2 (fallback_chain
             (mkSupabase (unavailable "a") (unavailable "b") (unavailable "c")))))
             (mkError "a") (mkError "b") (mkError "c"));
      reflexivity.
Defined.

(** ** The worked example *)

(** C5: the three rows [{accruals_for_sale: 1000}],
    [{sale_commission: -150}] and
    [{operation_type_name: "Доставка", amount: 80}], reaching tier 3,
    give the summary [sales 1000, commissions 150, delivery 80, returns 0,
    ads 0, services 0, totalIncome 1000, totalExpenses 230, netProfit 770]
    and the category list sales 1000 (81.3 %), commissions 150 (12.2 %),
    delivery 80 (6.5 %), in this order. *)
Theorem example_three_rows :
  let d := tier3 (Some exampleRows) in
  fst (Async.run (queryFn (onlyTransactions exampleRows))) = Resolved d /\
  summary d = mkFinanceSummary 1000 150 80 0 0 0 1000 230 770 /\
  map category (categories d) =
    map (propOr CATEGORY_LABELS) ["sales"; "commissions"; "delivery"] /\
  map amount (categories d) = [1000; 150; 80] /\
  map (fun c => tenths (percentage c)) (categories d) = [813; 122; 65]%Z /\
  Forall (fun c => percentage c == amount c / (1000 + 230) * 100) (categories d).
Proof.
  vm_compute. repeat split; repeat constructor.
Qed.

(** ** The demonstration figures of tier 3 *)

(** C2 as stated fails: with no row at all, tier 3 does not return an
    all-zero summary with an empty category list. *)
Lemma empty_window_not_zero :
  ~ (allZeroSummary (summary (tier3 (Some []))) /\ categories (tier3 (Some [])) = []).
Proof.
  intros [_ H]. vm_compute in H. discriminate H.
Qed.

Lemma allZero_false_summary (t : Totals) :
  allZero t = false -> ~ allZeroSummary (summaryOfTotals t).
Proof.
  unfold allZero, allZeroSummary. cbn. intros H (H1 & H2 & H3 & H4 & H5 & H6 & _).
  apply Qeq_eq_bool in H1, H2, H3, H4, H5, H6.
  rewrite H1, H2, H3, H4, H5, H6 in H. discriminate H.
Qed.

(** C2, amended: whenever every bucket aggregates to exactly 0 (in
    particular when there is no row), tier 3 returns the fixed
    demonstration figures (sales 10000, commissions 1500, delivery 800,
    returns 200, ads 300, services 500, totalIncome 10000, totalExpenses
    3300, netProfit 6700) with their six category entries; and no tier-3
    summary is all-zero. *)
Theorem tier3_demo_figures :
  forall transactionData : option (list RawRecord),
    (allZero (categorizeAll transactionData) = true ->
     summary (tier3 transactionData) =
       mkFinanceSummary 10000 1500 800 200 300 500 10000 3300 6700 /\
     map category (categories (tier3 transactionData)) =
       map (propOr CATEGORY_LABELS)
           ["sales"; "commissions"; "delivery"; "services"; "ads"; "returns"] /\
     map amount (categories (tier3 transactionData)) =
       [10000; 1500; 800; 500; 300; 200]) /\
    ~ allZeroSummary (summary (tier3 transactionData)).
Proof.
  intro transactionData. unfold tier3, ensureMinimum.
  destruct (allZero (categorizeAll transactionData)) eqn:E.
  - split.
    + intros _. vm_compute. repeat split.
    + intros (H & _). vm_compute in H. discriminate H.
  - split; [discriminate|].
    cbn [summary withCategories]. apply allZero_false_summary, E.
Qed.

(** The empty window is such a run. *)
Lemma tier3_demo_figures_witness :
  allZero (categorizeAll (Some [])) = true /\
  summary (tier3 (Some [])) =
    mkFinanceSummary 10000 1500 800 200 300 500 10000 3300 6700.
Proof.
  split.
  - reflexivity.
  - apply (proj1 (tier3_demo_figures (Some []))). reflexivity.
Defined.

(** ** The stable sort *)

Section SortFacts.
Context {A : Type} (after : A -> A -> bool).

Lemma insert_In (x y : A) (l : list A) :
  In y (insert after x l) <-> y = x \/ In y l.
Proof.
  induction l as [|z l IH]; cbn.
  - intuition auto.
  - destruct (after x z); cbn; rewrite ?IH; intuition auto.
Qed.

Lemma sort_In (y : A) (l : list A) : In y (sort after l) <-> In y l.
Proof.
  induction l as [|x l IH]; cbn.
  - tauto.
  - rewrite insert_In, IH. intuition auto.
Qed.

Lemma sort_Forall (P : A -> Prop) (l : list A) :
  Forall P l -> Forall P (sort after l).
Proof.
  rewrite !Forall_forall. intros H y Hy. apply H, sort_In, Hy.
Qed.

Lemma insert_length (x : A) (l : list A) :
  List.length (insert after x l) = S (List.length l).
Proof.
  induction l as [|z l IH]; cbn; [reflexivity|].
  destruct (after x z); cbn; congruence.
Qed.

(** [P] is the domain of the elements, [T] the order in which they
    arrive and [R] the order of the result. *)
Variables (P : A -> Prop) (T R : A -> A -> Prop).
Hypothesis moved : forall x y, P x -> P y -> after x y = true -> R y x.
Hypothesis kept : forall x y, P x -> P y -> after x y = false -> T x y -> R x y.
Hypothesis R_trans : forall x y z, R x y -> R y z -> R x z.

Lemma insert_sorted (x : A) (s : list A) :
  P x -> Forall P s -> Forall (T x) s ->
  StronglySorted R s -> StronglySorted R (insert after x s).
Proof.
  intros Px. induction s as [|y s IH]; intros HP HT Hs; cbn.
  - constructor; constructor.
  - inversion HP as [|? ? Py HP']; subst.
    inversion HT as [|? ? Txy HT']; subst.
    inversion Hs as [|? ? Hs' Hy]; subst.
    destruct (after x y) eqn:E.
    + constructor.
      * apply IH; assumption.
      * apply Forall_forall. intros z Hz. apply insert_In in Hz.
        destruct Hz as [->|Hz].
        -- apply moved; assumption.
        -- rewrite Forall_forall in Hy. apply Hy, Hz.
    + assert (Rxy : R x y) by (apply kept; assumption).
      constructor; [exact Hs|].
      constructor; [exact Rxy|].
      apply Forall_forall. intros z Hz.
      rewrite Forall_forall in Hy. apply R_trans with y; [exact Rxy | apply Hy, Hz].
Qed.

Lemma sort_sorted (l : list A) :
  Forall P l -> StronglySorted T l -> StronglySorted R (sort after l).
Proof.
  induction l as [|x l IH]; intros HP HT; cbn.
  - constructor.
  - inversion HP; subst. inversion HT; subst.
    apply insert_sorted; try assumption.
    + apply sort_Forall; assumption.
    + apply sort_Forall; assumption.
    + apply IH; assumption.
Qed.
End SortFacts.

Lemma insert_perm {A} (after : A -> A -> bool) (x : A) (l : list A) :
  Permutation (x :: l) (insert after x l).
Proof.
  induction l as [|y l IH]; cbn.
  - apply Permutation_refl.
  - destruct (after x y).
    + apply perm_trans with (y :: x :: l); [apply perm_swap|].
      apply perm_skip, IH.
    + apply Permutation_refl.
Qed.

Lemma sort_perm {A} (after : A -> A -> bool) (l : list A) :
  Permutation l (sort after l).
Proof.
  induction l as [|x l IH]; cbn.
  - apply perm_nil.
  - apply perm_trans with (x :: sort after l).
    + apply perm_skip, IH.
    + apply insert_perm.
Qed.

Lemma StronglySorted_firstn {A} (R : A -> A -> Prop) (n : nat) (l : list A) :
  StronglySorted R l -> StronglySorted R (firstn n l).
Proof.
  revert n. induction l as [|x l IH]; intros n H.
  - destruct n; constructor.
  - destruct n; cbn; [constructor|].
    inversion H as [|? ? Hl Hx]; subst. constructor.
    + apply IH, Hl.
    + rewrite Forall_forall in *. intros y Hy. apply Hx.
      revert Hy. clear. revert n. induction l as [|z l IHl]; intros n Hy.
      * destruct n; contradiction.
      * destruct n; [contradiction|]. cbn in Hy. destruct Hy as [->|Hy].
        -- left; reflexivity.
        -- right. apply (IHl n), Hy.
Qed.

Lemma StronglySorted_map {A B} (R : A -> A -> Prop) (S : B -> B -> Prop)
      (f : A -> B) (l : list A) :
  (forall x y, In x l -> In y l -> R x y -> S (f x) (f y)) ->
  StronglySorted R l -> StronglySorted S (map f l).
Proof.
  induction l as [|x l IH]; intros Hf H; cbn.
  - constructor.
  - inversion H as [|? ? Hl Hx]; subst. constructor.
    + apply IH; [|exact Hl]. intros a b Ha Hb. apply Hf; right; assumption.
    + rewrite Forall_forall in *. intros y Hy. apply in_map_iff in Hy.
      destruct Hy as (a & <- & Ha). apply Hf.
      * left; reflexivity.
      * right; exact Ha.
      * apply Hx, Ha.
Qed.

(** ** The category list *)

(** The callback on the entry of a bucket. *)
Lemma pushBucket_eq (s : FinanceSummary) (b : Bucket) :
  pushBucket s b =
  if negb (Qeq_bool (value b s) 0) then
    [ {| category := label b;
         amount := match b with Sales => value b s | _ => abs (value b s) end;
         percentage :=
           if Qgtb (totalIncome s + totalExpenses s) 0
           then (match b with Sales => value b s | _ => abs (value b s) end
                 / (totalIncome s + totalExpenses s)) * 100
           else 0;
         color := propOr CATEGORY_COLORS (key b) |} ]
  else [].
Proof.
  destruct b; reflexivity.
Qed.

(** Only the six bucket keys pass [key in CATEGORY_COLORS]. *)
Lemma buildCategories_eq (s : FinanceSummary) :
  buildCategories s =
  (pushBucket s Sales ++ pushBucket s Commissions ++ pushBucket s Delivery ++
   pushBucket s Returns ++ pushBucket s Ads ++ pushBucket s Services)%list.
Proof.
  rewrite <- (app_nil_r (pushBucket s Services)). reflexivity.
Qed.

Lemma buildCategories_In (s : FinanceSummary) (c : FinanceCategory) :
  In c (buildCategories s) <-> exists b, In c (pushBucket s b).
Proof.
  rewrite buildCategories_eq. rewrite !in_app_iff. split.
  - intros [H|[H|[H|[H|[H|H]]]]]; eexists; exact H.
  - intros [[] H]; tauto.
Qed.

Lemma labelRank_label (b : Bucket) :
  labelRank (label b) =
  match b with
  | Sales => 0 | Commissions => 1 | Delivery => 2
  | Returns => 3 | Ads => 4 | Services => 5
  end%nat.
Proof.
  destruct b; reflexivity.
Qed.

(** Before the sort the entries stand in the order of the enumeration. *)
Lemma buildCategories_ranked (s : FinanceSummary) :
  StronglySorted
    (fun a b => (labelRank (category a) < labelRank (category b))%nat)
    (buildCategories s).
Proof.
  rewrite buildCategories_eq, !pushBucket_eq.
  destruct (negb (Qeq_bool (value Sales s) 0));
  destruct (negb (Qeq_bool (value Commissions s) 0));
  destruct (negb (Qeq_bool (value Delivery s) 0));
  destruct (negb (Qeq_bool (value Returns s) 0));
  destruct (negb (Qeq_bool (value Ads s) 0));
  destruct (negb (Qeq_bool (value Services s) 0));
  cbn [app];
  repeat (constructor; cbn [category]; rewrite ?labelRank_label; try lia).
Qed.

Lemma precedes_trans (x y z : FinanceCategory) :
  precedes x y -> precedes y z -> precedes x z.
Proof.
  unfold precedes. intros [H1|[H1 R1]] [H2|[H2 R2]].
  - left; lra.
  - left; lra.
  - left; lra.
  - right; split; [lra | lia].
Qed.

Lemma withCategories_sorted (s : FinanceSummary) :
  StronglySorted precedes (categories (withCategories s)).
Proof.
  cbn [categories withCategories]. unfold jsSort.
  apply sort_sorted with
    (P := fun _ => True)
    (T := fun a b => (labelRank (category a) < labelRank (category b))%nat).
  - intros x y _ _ H. apply Qgtb_true in H. unfold byAmountDesc in H.
    left. lra.
  - intros x y _ _ H Hr. apply Qgtb_false in H. unfold byAmountDesc in H.
    unfold precedes. destruct (Qlt_le_dec (amount y) (amount x)) as [Hlt|Hle].
    + left; exact Hlt.
    + right; split; [lra | exact Hr].
  - apply precedes_trans.
  - apply Forall_forall. intros; exact I.
  - apply buildCategories_ranked.
Qed.

(** C7: every category list that [useFinanceData] returns is sorted by
    descending amount, and two entries of equal amount stand in the order
    of the enumeration sales, commissions, delivery, returns, ads,
    services: whenever [a] stands before [b], [precedes a b]. *)
Theorem categories_sorted :
  forall (supabase : Supabase) (d : FinanceData) (tr : list Event),
    Async.run (queryFn supabase) = (Resolved d, tr) ->
    StronglySorted precedes (categories d).
Proof.
  intros supabase d tr H.
  destruct (queryFn_resolved supabase d tr H) as [[-> _]|[[-> _]|[-> _]]].
  - apply withCategories_sorted.
  - constructor.
  - apply withCategories_sorted.
Qed.

(** The list of the worked example is sorted in this sense. *)
Lemma categories_sorted_witness :
  Async.run (queryFn (onlyTransactions exampleRows)) =
    (Resolved (tier3 (Some exampleRows)), traceTier3) /\
  StronglySorted precedes (categories (tier3 (Some exampleRows))).
Proof.
  split.
  - reflexivity.
  - apply (categories_sorted (onlyTransactions exampleRows)
             (tier3 (Some exampleRows)) traceTier3).
    reflexivity.
Defined.

Lemma withCategories_In (s : FinanceSummary) (c : FinanceCategory) :
  In c (categories (withCategories s)) <-> exists b, In c (pushBucket s b).
Proof.
  cbn [categories withCategories]. unfold jsSort.
  rewrite sort_In. apply buildCategories_In.
Qed.

Lemma pushBucket_In (s : FinanceSummary) (b : Bucket) (c : FinanceCategory) :
  In c (pushBucket s b) -> ~ value b s == 0 /\ builtFrom s b c.
Proof.
  rewrite pushBucket_eq.
  destruct (Qeq_bool (value b s) 0) eqn:E; cbn [negb]; [intros []|].
  intros [<-|[]]. split; [apply Qeq_bool_false, E|].
  unfold builtFrom; cbn [category amount percentage].
  repeat split.
  - intro H. apply Qgtb_true in H. rewrite H. reflexivity.
  - intro H. apply Qgtb_false in H. rewrite H. reflexivity.
Qed.

Lemma pushBucket_nonzero (s : FinanceSummary) (b : Bucket) :
  ~ value b s == 0 -> exists c, In c (pushBucket s b).
Proof.
  intro H. apply Qeq_bool_false in H. rewrite pushBucket_eq, H.
  eexists. left. reflexivity.
Qed.

Lemma withCategories_lists (s : FinanceSummary) :
  listsNonZeroBuckets (withCategories s).
Proof.
  split.
  - intros c Hc. apply withCategories_In in Hc. destruct Hc as [b Hb].
    exists b. apply pushBucket_In, Hb.
  - intros b Hb. destruct (pushBucket_nonzero _ _ Hb) as [c Hc].
    exists c. split.
    + apply withCategories_In. exists b. exact Hc.
    + apply (pushBucket_In _ _ _ Hc).
Qed.

Lemma nonneg_value (t : Totals) (b : Bucket) :
  nonneg t -> 0 <= value b (summaryOfTotals t).
Proof.
  intros (H1 & H2 & H3 & H4 & H5 & H6). destruct b; assumption.
Qed.

Lemma value_le_total (t : Totals) (b : Bucket) :
  nonneg t ->
  value b (summaryOfTotals t) <=
  totalIncome (summaryOfTotals t) + totalExpenses (summaryOfTotals t).
Proof.
  intros (H1 & H2 & H3 & H4 & H5 & H6).
  destruct b; cbn [value summaryOfTotals sales commissions delivery returns ads
                   services totalIncome totalExpenses]; lra.
Qed.

(** C6 as stated fails: tier 1 lists the commissions bucket although its
    value, -150, is not greater than 0. *)
Lemma negative_bucket_listed :
  let d := tier1 (Some negativeCommission) in
  ~ 0 < commissions (summary d) /\
  exists c, In c (categories d) /\ category c = label Commissions /\ amount c = 150.
Proof.
  split.
  - vm_compute. discriminate.
  - eexists. split; [|split].
    + vm_compute. right. left. reflexivity.
    + reflexivity.
    + reflexivity.
Qed.

(** C6, amended: in tiers 1 and 3 an entry is built for each bucket whose
    value is not 0 (a negative bucket included), with the value as amount
    for sales and the absolute value for the other buckets; the percentage
    is [amount / (totalIncome + totalExpenses) * 100] when that total is
    positive and 0 otherwise.  Tier 2 builds no entry.  In tier 3, where
    no bucket is negative, the entries are those of the buckets strictly
    greater than 0, the amount is the bucket and the percentage is the
    quotient. *)
Theorem category_entries :
  (forall summaryData, listsNonZeroBuckets (tier1 summaryData)) /\
  (forall data, categories (tier2 data) = []) /\
  (forall transactionData,
     listsNonZeroBuckets (tier3 transactionData) /\
     forall c, In c (categories (tier3 transactionData)) ->
       let s := summary (tier3 transactionData) in
       exists b, category c = label b /\ 0 < value b s /\ amount c == value b s /\
                 percentage c == amount c / (totalIncome s + totalExpenses s) * 100).
Proof.
  split; [|split].
  - intro summaryData. apply withCategories_lists.
  - reflexivity.
  - intro transactionData. split; [apply withCategories_lists|].
    intros c Hc s.
    destruct (proj1 (withCategories_lists _) c Hc) as (b & Hnz & Hl & Ha & Hp & _).
    pose proof (tier3_totals_nonneg transactionData) as Hnn.
    fold s in Hnz, Ha, Hp.
    assert (Hv : 0 <= value b s) by (apply nonneg_value, Hnn).
    assert (Ht : value b s <= totalIncome s + totalExpenses s)
      by (apply value_le_total, Hnn).
    assert (Hpos : 0 < value b s).
    { destruct (Qlt_le_dec 0 (value b s)) as [Hlt|Hle]; [exact Hlt|].
      exfalso. apply Hnz. apply Qle_antisym; assumption. }
    assert (Hamt : amount c == value b s).
    { rewrite Ha. destruct b; try reflexivity; apply Qabs_pos; exact Hv. }
    exists b. repeat split; try assumption.
    apply Hp. apply Qlt_le_trans with (value b s); assumption.
Qed.

(** The first entry of the worked example. *)
Lemma category_entries_witness :
  let d := tier3 (Some exampleRows) in
  let c := mkFinanceCategory (label Sales) 1000 (100000 # 1230) "#10b981" in
  In c (categories d) /\
  exists b, ~ value b (summary d) == 0 /\ builtFrom (summary d) b c.
Proof.
  assert (H : In (mkFinanceCategory (label Sales) 1000 (100000 # 1230) "#10b981")
                 (categories (tier3 (Some exampleRows)))).
  { left. reflexivity. }
  split.
  - exact H.
  - exact (proj1 (proj1 (proj2 (proj2 category_entries) (Some exampleRows))) _ H).
Defined.

(** ** The invariant of the summary *)








(** ** The six rules of the loop body *)

(** A bucket whose rule does not hold is left as it was. *)
Lemma categorize_unchanged (t : Totals) (item : RawRecord) (b : Bucket) :
  rule b item = false -> total b (categorize t item) = total b t.
Proof.
  destruct b; unfold rule, categorize;
    cbn [total totalSales totalCommissions totalDelivery totalReturns
         totalAds totalServices];
    intro H.
  - apply orb_false_iff in H. destruct H as [H1 H2]. rewrite H1, H2. reflexivity.
  - apply orb_false_iff in H. destruct H as [H1 H2]. rewrite H1, H2. reflexivity.
  - apply orb_false_iff in H. destruct H as [H1 H2]. rewrite H1, H2. reflexivity.
  - apply orb_false_iff in H. destruct H as [H1 H2]. rewrite H1, H2. reflexivity.
  - rewrite H. reflexivity.
  - apply orb_false_iff in H. destruct H as [H1 H2]. rewrite H2.
    apply andb_false_iff in H1. destruct H1 as [H1|H1]; rewrite H1.
    + reflexivity.
    + destruct (kw_services _); reflexivity.
Qed.











(** ** Delivery services *)

(** With one of the two keywords the services rule tests, a delivery
    service is counted in delivery and not in services. *)
Lemma delivery_service_excluded (t : Totals) (item : RawRecord) :
  includes (operationType item) "доставк" = true \/
  includes (operationType item) "delivery" = true ->
  rule Services item = false /\ rule Delivery item = true /\
  totalServices (categorize t item) = totalServices t.
Proof.
  intro H.
  assert (Hs : rule Services item = false).
  { unfold rule, not_delivery_service, catch_all.
    destruct H as [H|H]; rewrite H; cbn [negb andb];
      rewrite ?andb_false_r; reflexivity. }
  split; [exact Hs|]. split.
  - unfold rule, kw_delivery. destruct H as [H|H]; rewrite H;
      rewrite ?orb_true_r; reflexivity.
  - apply (categorize_unchanged t item Services Hs).
Qed.

(** C4, on the code: the operation type "Shipping service" matches a
    services keyword and the delivery keyword "shipping", and the row is
    counted in delivery (10) and also in services, by the services rule
    and once more by the catch-all (20). *)
Theorem shipping_service_counted_in_services :
  kw_services (operationType shippingService) = true /\
  kw_delivery (operationType shippingService) = true /\
  not_delivery_service (operationType shippingService) = true /\
  rule Services shippingService = true /\
  categorize zeroTotals shippingService = mkTotals 0 0 10 0 0 20.
Proof.
  repeat split.
Qed.

(** ** The breakdown *)

Section SelectFacts.
Context {R : Type} (dateOf : R -> option Z).

Lemma newestFirst_trans (x y z : R) :
  newestFirst dateOf x y -> newestFirst dateOf y z -> newestFirst dateOf x z.
Proof.
  intros (a & b & Ha & Hb & H1) (b' & c & Hb' & Hc & H2).
  rewrite Hb in Hb'. injection Hb' as <-.
  exists a, c. repeat split; try assumption. lia.
Qed.

Lemma anyOrder (l : list R) : StronglySorted (fun _ _ => True) l.
Proof.
  induction l; constructor; [assumption|].
  apply Forall_forall. intros; exact I.
Qed.

Lemma sorted_by_date (l : list R) :
  Forall (fun x => exists d, dateOf x = Some d) l ->
  StronglySorted (newestFirst dateOf) (sort (older dateOf) l).
Proof.
  intro H.
  apply sort_sorted with (P := fun x => exists d, dateOf x = Some d)
                         (T := fun _ _ => True).
  - intros x y [dx Hx] [dy Hy] Ho. unfold older in Ho. rewrite Hx, Hy in Ho.
    apply Z.ltb_lt in Ho. exists dy, dx. repeat split; try assumption. lia.
  - intros x y [dx Hx] [dy Hy] Ho _. unfold older in Ho. rewrite Hx, Hy in Ho.
    apply Z.ltb_ge in Ho. exists dx, dy. repeat split; assumption.
  - apply newestFirst_trans.
  - exact H.
  - apply anyOrder.
Qed.

Lemma filter_dated (l : list R) (dateFrom dateTo : Z) :
  Forall (fun x => exists d, dateOf x = Some d)
         (filter (inRange dateOf dateFrom dateTo) l).
Proof.
  apply Forall_forall. intros x Hx. apply filter_In in Hx.
  destruct Hx as [_ Hx]. unfold inRange in Hx.
  destruct (dateOf x) as [d|]; [exists d; reflexivity | discriminate].
Qed.

Lemma select_sorted (table : list R) (dateFrom dateTo : Z) :
  StronglySorted (newestFirst dateOf) (select dateOf table dateFrom dateTo).
Proof.
  unfold select. apply StronglySorted_firstn, sorted_by_date, filter_dated.
Qed.

Lemma select_length (table : list R) (dateFrom dateTo : Z) :
  (List.length (select dateOf table dateFrom dateTo) <= 100)%nat.
Proof.
  unfold select. apply firstn_le_length.
Qed.

Lemma In_firstn {A} (n : nat) (l : list A) (x : A) :
  In x (firstn n l) -> In x l.
Proof.
  intro H. rewrite <- (firstn_skipn n l). apply in_or_app. left. exact H.
Qed.

Lemma select_In (table : list R) (dateFrom dateTo : Z) (item : R) :
  In item (select dateOf table dateFrom dateTo) ->
  In item table /\ inRange dateOf dateFrom dateTo item = true.
Proof.
  unfold select. intro H. apply In_firstn in H. apply sort_In in H.
  apply filter_In in H. exact H.
Qed.

(** A sorted list splits into a front and a rest that follows it. *)
Lemma sorted_split (S : R -> R -> Prop) (n : nat) (l : list R) (x y : R) :
  StronglySorted S l -> In x (firstn n l) -> In y (skipn n l) -> S x y.
Proof.
  revert n. induction l as [|z l IH]; intros n Hs Hx Hy.
  - destruct n; contradiction.
  - destruct n; [contradiction|]. cbn in Hx, Hy.
    inversion Hs as [|? ? Hl Hz]; subst.
    destruct Hx as [->|Hx].
    + rewrite Forall_forall in Hz. apply Hz.
      rewrite <- (firstn_skipn n l). apply in_or_app. right. exact Hy.
    + apply (IH n); assumption.
Qed.

(** The rows selected are the most recent ones of the range. *)
Lemma select_most_recent (table : list R) (dateFrom dateTo : Z) (item : R) :
  In item table -> inRange dateOf dateFrom dateTo item = true ->
  In item (select dateOf table dateFrom dateTo) \/
  forall kept, In kept (select dateOf table dateFrom dateTo) ->
               newestFirst dateOf kept item.
Proof.
  intros Hi Hr.
  assert (H : In item (sort (older dateOf)
                         (filter (inRange dateOf dateFrom dateTo) table))).
  { apply sort_In, filter_In. split; assumption. }
  rewrite <- (firstn_skipn 100) in H. apply in_app_or in H.
  destruct H as [H|H]; [left; exact H|].
  right. intros kept Hk.
  apply (sorted_split (newestFirst dateOf) 100
           (sort (older dateOf) (filter (inRange dateOf dateFrom dateTo) table))).
  - apply sorted_by_date, filter_dated.
  - exact Hk.
  - exact H.
Qed.
End SelectFacts.

Lemma Forall2_map_self {A B} (P : A -> B -> Prop) (f : A -> B) (l : list A) :
  (forall x, In x l -> P x (f x)) -> Forall2 P l (map f l).
Proof.
  induction l as [|x l IH]; intro H; cbn; constructor.
  - apply H. left; reflexivity.
  - apply IH. intros y Hy. apply H. right; exact Hy.
Qed.

(** C9 as stated fails in the hook of [useFinanceData.ts]: a row that is
    a delivery charge (operation type "Delivery", [delivery_charge] -50)
    with amount -80 gets the services contribution 80. *)
Lemma delivery_row_has_services :
  includes (operationType deliveryRow) "delivery" = true /\
  exists row,
    Breakdown.useFinanceBreakdown 0 [deliveryRow] 1 31 = Resolved [row] /\
    Breakdown.delivery row = 50 /\
    Breakdown.services row = 80 /\
    Breakdown.net_profit row = -80.
Proof.
  split; [reflexivity|]. eexists. repeat split.
Qed.

Section SelectSpec.
Context {R : Type} (dateOf : R -> option Z).

Lemma select_count (table : list R) (dateFrom dateTo : Z) :
  List.length (select dateOf table dateFrom dateTo) =
  Nat.min 100 (List.length (filter (inRange dateOf dateFrom dateTo) table)).
Proof.
  unfold select. rewrite length_firstn.
  rewrite <- (Permutation_length (sort_perm (older dateOf) _)). reflexivity.
Qed.

Lemma select_partition (table : list R) (dateFrom dateTo : Z) :
  Permutation
    (select dateOf table dateFrom dateTo ++
     skipn 100 (sort (older dateOf) (filter (inRange dateOf dateFrom dateTo) table)))
    (filter (inRange dateOf dateFrom dateTo) table).
Proof.
  unfold select. rewrite firstn_skipn. apply Permutation_sym, sort_perm.
Qed.

Lemma select_dropped (table : list R) (dateFrom dateTo : Z) (kept old : R) :
  In kept (select dateOf table dateFrom dateTo) ->
  In old (skipn 100 (sort (older dateOf) (filter (inRange dateOf dateFrom dateTo) table))) ->
  newestFirst dateOf kept old.
Proof.
  intros Hk Ho.
  apply (sorted_split (newestFirst dateOf) 100
           (sort (older dateOf) (filter (inRange dateOf dateFrom dateTo) table)));
    try assumption.
  apply sorted_by_date, filter_dated.
Qed.

Lemma inRange_spec (dateFrom dateTo : Z) (item : R) :
  inRange dateOf dateFrom dateTo item = true <->
  exists day, dateOf item = Some day /\ (dateFrom <= day <= dateTo)%Z.
Proof.
  unfold inRange. destruct (dateOf item) as [d|].
  - rewrite andb_true_iff, !Z.leb_le. split.
    + intro H. exists d. split; [reflexivity | exact H].
    + intros (day & E & H). injection E as <-. exact H.
  - split; [discriminate|]. intros (day & E & _). discriminate E.
Qed.

Lemma select_window (table : list R) (dateFrom dateTo : Z) (item : R) :
  In item (select dateOf table dateFrom dateTo) ->
  In item table /\
  exists day, dateOf item = Some day /\ (dateFrom <= day <= dateTo)%Z.
Proof.
  intro H. apply select_In in H. destruct H as [Hi Hr].
  split; [exact Hi | apply inRange_spec, Hr].
Qed.

Lemma skipn_In_full {A} (n : nat) (l : list A) (x : A) :
  In x (skipn n l) -> List.length (firstn n l) = n.
Proof.
  intro H. rewrite length_firstn. apply Nat.min_l.
  destruct (Nat.le_gt_cases n (List.length l)) as [Hle|Hgt]; [exact Hle|].
  rewrite skipn_all2 in H by lia. destruct H.
Qed.

Lemma select_complete (table : list R) (dateFrom dateTo : Z) (item : R) (day : Z) :
  In item table -> dateOf item = Some day -> (dateFrom <= day <= dateTo)%Z ->
  In item (select dateOf table dateFrom dateTo) \/
  (List.length (select dateOf table dateFrom dateTo) = 100%nat /\
   forall kept, In kept (select dateOf table dateFrom dateTo) ->
                newestFirst dateOf kept item).
Proof.
  intros Hi Hd Hr.
  assert (Hin : inRange dateOf dateFrom dateTo item = true).
  { apply inRange_spec. exists day. split; assumption. }
  assert (H : In item (sort (older dateOf)
                         (filter (inRange dateOf dateFrom dateTo) table))).
  { apply sort_In, filter_In. split; assumption. }
  rewrite <- (firstn_skipn 100) in H. apply in_app_or in H.
  destruct H as [H|H]; [left; exact H|].
  right. split.
  - unfold select. apply (skipn_In_full 100 _ item H).
  - intros kept Hk. apply (select_dropped table dateFrom dateTo kept item Hk H).
Qed.
End SelectSpec.

(** C9, amended: both variants of the breakdown return the most recent
    rows of the date range, latest first: every emitted row comes from a
    record of the table whose operation date lies in the range; all such
    records are returned when there are at most 100, and otherwise 100 of
    them, none older than a record left out.  [net_profit] of a row is
    the signed amount of its record.  In the hook of [useFinanceData.ts]
    the services contribution is [abs(amount)] for every row, delivery
    charge or not; in the variant on the [transactions] table it is
    [abs(amount)] when the operation type does not contain "delivery" and
    0 when it does. *)
Theorem breakdown_rows :
  (forall today table dateFrom dateTo,
     let selected := select operation_date_msk table dateFrom dateTo in
     let inWindow := filter (inRange operation_date_msk dateFrom dateTo) table in
     exists rows dropped,
       Breakdown.useFinanceBreakdown today table dateFrom dateTo = Resolved rows /\
       List.length rows = Nat.min 100 (List.length inWindow) /\
       Permutation (selected ++ dropped) inWindow /\
       (forall kept old, In kept selected -> In old dropped ->
          newestFirst operation_date_msk kept old) /\
       StronglySorted notOlder rows /\
       (forall item day, In item table ->
          operation_date_msk item = Some day -> (dateFrom <= day <= dateTo)%Z ->
          In item selected \/
          (List.length rows = 100%nat /\
           forall kept, In kept selected -> newestFirst operation_date_msk kept item)) /\
       Forall2 (fun item row =>
                  In item table /\
                  (exists day, operation_date_msk item = Some day /\
                               (dateFrom <= day <= dateTo)%Z /\
                               Breakdown.date_msk row = day) /\
                  Breakdown.net_profit row == toNumber (item_amount item) /\
                  Breakdown.services row == Qabs (toNumber (item_amount item)))
               selected rows) /\
  (forall table dateFrom dateTo,
     let selected := select Transactions.operation_date table dateFrom dateTo in
     let inWindow := filter (inRange Transactions.operation_date dateFrom dateTo) table in
     exists rows dropped,
       Transactions.useFinanceBreakdown table dateFrom dateTo = Resolved rows /\
       List.length rows = Nat.min 100 (List.length inWindow) /\
       Permutation (selected ++ dropped) inWindow /\
       (forall kept old, In kept selected -> In old dropped ->
          newestFirst Transactions.operation_date kept old) /\
       StronglySorted notOlder rows /\
       (forall item day, In item table ->
          Transactions.operation_date item = Some day -> (dateFrom <= day <= dateTo)%Z ->
          In item selected \/
          (List.length rows = 100%nat /\
           forall kept, In kept selected ->
                        newestFirst Transactions.operation_date kept item)) /\
       Forall2 (fun item row =>
                  In item table /\
                  (exists day, Transactions.operation_date item = Some day /\
                               (dateFrom <= day <= dateTo)%Z /\
                               Breakdown.date_msk row = day) /\
                  Breakdown.net_profit row == toNumber (Transactions.amount item) /\
                  Breakdown.services row =
                    if Transactions.deliveryTagged item then 0
                    else Qabs (toNumber (Transactions.amount item)))
               selected rows).
Proof.
  split.
  - intros today table dateFrom dateTo selected inWindow.
    exists (map (Breakdown.project today) selected),
           (skipn 100 (sort (older operation_date_msk) inWindow)).
    split; [reflexivity|].
    split; [rewrite length_map; apply select_count|].
    split; [apply select_partition|].
    split; [intros kept old; apply select_dropped|].
    split; [|split].
    + apply StronglySorted_map with (R := newestFirst operation_date_msk).
      * intros x y _ _ (dx & dy & Hx & Hy & Hle).
        unfold notOlder, Breakdown.project; cbn [Breakdown.date_msk].
        rewrite Hx, Hy. exact Hle.
      * apply select_sorted.
    + intros item day Hi Hd Hr. rewrite length_map.
      apply (select_complete operation_date_msk table dateFrom dateTo item day);
        assumption.
    + apply Forall2_map_self. intros item Hi.
      apply select_window in Hi. destruct Hi as (Hi & day & Hd & Hr).
      split; [exact Hi|]. split.
      * exists day. split; [exact Hd|]. split; [exact Hr|].
        unfold Breakdown.project; cbn [Breakdown.date_msk]. rewrite Hd. reflexivity.
      * unfold Breakdown.project; cbn [Breakdown.net_profit Breakdown.services].
        split; apply or0_eq.
  - intros table dateFrom dateTo selected inWindow.
    exists (map Transactions.project selected),
           (skipn 100 (sort (older Transactions.operation_date) inWindow)).
    split; [reflexivity|].
    split; [rewrite length_map; apply select_count|].
    split; [apply select_partition|].
    split; [intros kept old; apply select_dropped|].
    split; [|split].
    + apply StronglySorted_map with (R := newestFirst Transactions.operation_date).
      * intros x y _ _ (dx & dy & Hx & Hy & Hle).
        unfold notOlder, Transactions.project; cbn [Breakdown.date_msk].
        rewrite Hx, Hy. exact Hle.
      * apply select_sorted.
    + intros item day Hi Hd Hr. rewrite length_map.
      apply (select_complete Transactions.operation_date table dateFrom dateTo item day);
        assumption.
    + apply Forall2_map_self. intros item Hi.
      apply select_window in Hi. destruct Hi as (Hi & day & Hd & Hr).
      split; [exact Hi|]. split.
      * exists day. split; [exact Hd|]. split; [exact Hr|].
        unfold Transactions.project; cbn [Breakdown.date_msk]. rewrite Hd. reflexivity.
      * unfold Transactions.project; cbn [Breakdown.net_profit Breakdown.services].
        split; [apply or0_eq|].
        destruct (Transactions.deliveryTagged item); reflexivity.
Qed.

(** The delivery row of the view, dated day 10, in the range 1..31: it is
    the one row returned. *)
Lemma breakdown_rows_witness :
  In deliveryRow [deliveryRow] /\
  operation_date_msk deliveryRow = Some 10%Z /\ (1 <= 10 <= 31)%Z /\
  exists rows,
    Breakdown.useFinanceBreakdown 0 [deliveryRow] 1 31 = Resolved rows /\
    List.length rows =
      Nat.min 100 (List.length (filter (inRange operation_date_msk 1 31) [deliveryRow])) /\
    (In deliveryRow (select operation_date_msk [deliveryRow] 1 31) \/
     (List.length rows = 100%nat /\
      forall kept, In kept (select operation_date_msk [deliveryRow] 1 31) ->
                   newestFirst operation_date_msk kept deliveryRow)).
Proof.
  split; [left; reflexivity|]. split; [reflexivity|]. split; [lia|].
  destruct (proj1 breakdown_rows 0%Z [deliveryRow] 1%Z 31%Z)
    as (rows & dropped & Hrun & Hlen & _ & _ & _ & Hcomplete & _).
  exists rows. split; [exact Hrun|]. split; [exact Hlen|].
  apply (Hcomplete deliveryRow 10%Z); [left; reflexivity | reflexivity | lia].
Defined.

(** * Further properties *)

(** ** Sums *)

Lemma sumOf_app {A} (f : A -> Q) (l1 l2 : list A) :
  sumOf f (l1 ++ l2) == sumOf f l1 + sumOf f l2.
Proof.
  unfold sumOf. induction l1 as [|x l1 IH]; cbn [app fold_right].
  - lra.
  - rewrite IH. lra.
Qed.

Lemma sumOf_perm {A} (f : A -> Q) (l l' : list A) :
  Permutation l l' -> sumOf f l == sumOf f l'.
Proof.
  unfold sumOf. induction 1; cbn [fold_right].
  - reflexivity.
  - rewrite IHPermutation. reflexivity.
  - lra.
  - rewrite IHPermutation1. exact IHPermutation2.
Qed.

(** ** The loop of tier 3 is a sum over the rows *)

Lemma categorize_add (t : Totals) (item : RawRecord) (b : Bucket) :
  total b (categorize t item) == total b t + contribution b item.
Proof.
  unfold contribution.
  destruct b; unfold categorize;
    cbn [total totalSales totalCommissions totalDelivery totalReturns
         totalAds totalServices zeroTotals].
  - destruct (Qgtb _ 0); [lra|]. destruct (kw_sales _); lra.
  - destruct (Qgtb _ 0); [lra|]. destruct (kw_commissions _); lra.
  - destruct (Qgtb _ 0); [lra|]. destruct (kw_delivery _); lra.
  - destruct (Qgtb _ 0); [lra|]. destruct (kw_returns _); lra.
  - destruct (kw_ads _); lra.
  - destruct (catch_all _ _ _ _ _ _);
      destruct (kw_services _); try destruct (not_delivery_service _); lra.
Qed.

Lemma fold_categorize_sum (rows : list RawRecord) (t : Totals) (b : Bucket) :
  total b (fold_left categorize rows t) == total b t + sumOf (contribution b) rows.
Proof.
  unfold sumOf.
  revert t. induction rows as [|item rows IH]; intro t; cbn [fold_left fold_right].
  - lra.
  - rewrite IH, categorize_add. lra.
Qed.

Lemma categorizeAll_sum (rows : list RawRecord) (b : Bucket) :
  total b (categorizeAll (Some rows)) == sumOf (contribution b) rows.
Proof.
  unfold categorizeAll. cbn [orEmpty]. rewrite fold_categorize_sum.
  destruct b; cbn; lra.
Qed.

Lemma Qeq_bool_compat (a b : Q) : a == b -> Qeq_bool a 0 = Qeq_bool b 0.
Proof.
  intro H. destruct (Qeq_bool b 0) eqn:E.
  - apply Qeq_bool_eq in E. apply Qeq_eq_bool. lra.
  - apply Qeq_bool_false in E. apply Qeq_bool_false. lra.
Qed.

Lemma allZero_compat (t t' : Totals) :
  (forall b, total b t == total b t') -> allZero t = allZero t'.
Proof.
  intro H. unfold allZero.
  rewrite (Qeq_bool_compat (totalSales t) (totalSales t') (H Sales)),
    (Qeq_bool_compat (totalCommissions t) (totalCommissions t') (H Commissions)),
    (Qeq_bool_compat (totalDelivery t) (totalDelivery t') (H Delivery)),
    (Qeq_bool_compat (totalReturns t) (totalReturns t') (H Returns)),
    (Qeq_bool_compat (totalAds t) (totalAds t') (H Ads)),
    (Qeq_bool_compat (totalServices t) (totalServices t') (H Services)).
  reflexivity.
Qed.

Lemma summaryOfTotals_compat (t t' : Totals) :
  (forall b, total b t == total b t') ->
  sameSummary (summaryOfTotals (ensureMinimum t)) (summaryOfTotals (ensureMinimum t')).
Proof.
  intro H. unfold ensureMinimum. rewrite <- (allZero_compat t t' H).
  destruct (allZero t).
  - unfold sameSummary. repeat split; reflexivity.
  - pose proof (H Sales) as H1. pose proof (H Commissions) as H2.
    pose proof (H Delivery) as H3. pose proof (H Returns) as H4.
    pose proof (H Ads) as H5. pose proof (H Services) as H6.
    cbn [total] in H1, H2, H3, H4, H5, H6.
    unfold sameSummary, summaryOfTotals.
    cbn [totalIncome totalExpenses netProfit].
    repeat split; try lra.
    intro b; destruct b; cbn [value sales commissions delivery returns ads services];
      assumption.
Qed.

(** X1: in exact arithmetic the totals of tier 3 are the sums of what
    each row adds, so two batches add up and the order in which the rows
    arrive (the query of tier 3 asks for none) does not change a number of
    the summary.  The code adds doubles in the order of arrival, where
    this holds up to rounding only. *)
Theorem tier3_order_independent :
  (forall (rows1 rows2 : list RawRecord) b,
     total b (categorizeAll (Some (rows1 ++ rows2)%list)) ==
     total b (categorizeAll (Some rows1)) + total b (categorizeAll (Some rows2))) /\
  (forall rows rows',
     Permutation rows rows' ->
     sameSummary (summary (tier3 (Some rows))) (summary (tier3 (Some rows')))).
Proof.
  split.
  - intros rows1 rows2 b. rewrite !categorizeAll_sum. apply sumOf_app.
  - intros rows rows' Hp. unfold tier3. cbn [summary withCategories].
    apply summaryOfTotals_compat. intro b.
    rewrite !categorizeAll_sum. apply sumOf_perm, Hp.
Qed.

(** The worked example with its rows reversed. *)
Lemma tier3_order_independent_witness :
  Permutation exampleRows (rev exampleRows) /\
  sameSummary (summary (tier3 (Some exampleRows)))
              (summary (tier3 (Some (rev exampleRows)))).
Proof.
  split.
  - apply Permutation_rev.
  - apply (proj2 tier3_order_independent exampleRows (rev exampleRows)).
    apply Permutation_rev.
Defined.

(** ** Rows the catch-all takes *)

(** X2: when the catch-all fires on a row (positive amount, no structured
    field, none of the ten substrings it tests), the services total grows
    by the amount, and by twice the amount when the operation type also
    has a services keyword: the services rule has added it already. *)
Theorem catch_all_adds_to_services :
  forall (t : Totals) (item : RawRecord),
    let amount := or0 (abs (toNumber (item_amount item))) in
    catch_all amount
      (or0 (toNumber (accruals_for_sale item)))
      (or0 (abs (toNumber (sale_commission item))))
      (or0 (abs (toNumber (delivery_charge item))))
      (or0 (abs (toNumber (return_delivery_charge item))))
      (operationType item) = true ->
    totalServices (categorize t item) ==
    totalServices t +
    (if kw_services (operationType item) then amount + amount else amount).
Proof.
  intros t item amount H.
  assert (Hnd : not_delivery_service (operationType item) = true).
  { unfold catch_all in H. unfold not_delivery_service.
    repeat (apply andb_true_iff in H; destruct H as [H ?]).
    apply andb_true_iff. split; assumption. }
  unfold categorize. cbn [totalServices]. fold amount. rewrite H, Hnd.
  destruct (kw_services (operationType item)); lra.
Qed.

(** A row named "Processing" with amount 10 adds 20 to services. *)
Lemma catch_all_adds_to_services_witness :
  kw_services (operationType processingRow) = true /\
  totalServices (categorize zeroTotals processingRow) == 0 + (10 + 10).
Proof.
  split; [reflexivity|].
  apply (catch_all_adds_to_services zeroTotals processingRow).
  reflexivity.
Defined.

(** ** Signs *)

Lemma abs_toNumber_opp (v : option Q) :
  abs (toNumber (option_map Qopp v)) = abs (toNumber v).
Proof.
  destruct v as [[n d]|]; [|reflexivity].
  cbn. unfold Qabs, Qopp. cbn. rewrite Z.abs_opp. reflexivity.
Qed.

Lemma categorize_flipSigns (t : Totals) (item : RawRecord) :
  categorize t (flipSigns item) = categorize t item.
Proof.
  unfold categorize, operationType.
  cbn [flipSigns item_amount accruals_for_sale sale_commission delivery_charge
       return_delivery_charge operation_type_name].
  rewrite !abs_toNumber_opp. reflexivity.
Qed.

(** X3: tier 3 reads [sale_commission], [delivery_charge],
    [return_delivery_charge] and [amount] through [Math.abs] only: turning
    the sign of all four in every row changes nothing in the result. *)
Theorem tier3_ignores_signs :
  forall rows : list RawRecord,
    tier3 (Some (map flipSigns rows)) = tier3 (Some rows).
Proof.
  intro rows. unfold tier3, categorizeAll. cbn [orEmpty].
  f_equal. f_equal. f_equal.
  generalize zeroTotals. induction rows as [|item rows IH]; intro t; cbn [map fold_left].
  - reflexivity.
  - rewrite categorize_flipSigns. apply IH.
Qed.

(** ** The category list of tier 3 and the chart *)

Lemma ensureMinimum_not_allZero (t : Totals) : allZero (ensureMinimum t) = false.
Proof.
  unfold ensureMinimum. destruct (allZero t) eqn:E; [reflexivity | exact E].
Qed.

Lemma nonneg_not_allZero_pos (t : Totals) :
  nonneg t -> allZero t = false ->
  0 < totalSales t + (totalCommissions t + totalDelivery t + totalReturns t
                      + totalAds t + totalServices t).
Proof.
  intros (H1 & H2 & H3 & H4 & H5 & H6) Hz.
  apply Qnot_le_lt. intro Hle.
  assert (E1 : totalSales t == 0) by lra.
  assert (E2 : totalCommissions t == 0) by lra.
  assert (E3 : totalDelivery t == 0) by lra.
  assert (E4 : totalReturns t == 0) by lra.
  assert (E5 : totalAds t == 0) by lra.
  assert (E6 : totalServices t == 0) by lra.
  apply Qeq_eq_bool in E1, E2, E3, E4, E5, E6.
  unfold allZero in Hz. rewrite E1, E2, E3, E4, E5, E6 in Hz. discriminate Hz.
Qed.

Lemma tier3_total_pos (transactionData : option (list RawRecord)) :
  0 < totalIncome (summary (tier3 transactionData))
      + totalExpenses (summary (tier3 transactionData)).
Proof.
  unfold tier3. cbn [summary withCategories summaryOfTotals totalIncome totalExpenses].
  apply nonneg_not_allZero_pos.
  - apply tier3_totals_nonneg.
  - apply ensureMinimum_not_allZero.
Qed.

(** The percentages one bucket brings, when no bucket is negative. *)
Lemma pushBucket_percentage (s : FinanceSummary) (b : Bucket) :
  0 < totalIncome s + totalExpenses s -> 0 <= value b s ->
  sumOf percentage (pushBucket s b) ==
  value b s / (totalIncome s + totalExpenses s) * 100.
Proof.
  intros Ht Hv. rewrite pushBucket_eq.
  destruct (Qeq_bool (value b s) 0) eqn:E; cbn [negb sumOf fold_right percentage].
  - apply Qeq_bool_eq in E. rewrite E. unfold Qdiv. ring.
  - apply Qgtb_true in Ht. rewrite Ht.
    assert (Ha : match b with Sales => value b s | _ => abs (value b s) end == value b s).
    { destruct b; try reflexivity; apply Qabs_pos; exact Hv. }
    rewrite Ha. ring.
Qed.

Lemma tier3_percentages (transactionData : option (list RawRecord)) :
  sumOf percentage (categories (tier3 transactionData)) == 100.
Proof.
  pose proof (tier3_total_pos transactionData) as Ht.
  pose proof (tier3_totals_nonneg transactionData) as Hn.
  unfold tier3 in *. cbn [categories withCategories summary] in *.
  set (t := ensureMinimum (categorizeAll transactionData)) in *.
  unfold jsSort. rewrite <- (sumOf_perm _ _ _ (sort_perm _ _)).
  rewrite buildCategories_eq, !sumOf_app.
  rewrite !pushBucket_percentage by (try exact Ht; apply nonneg_value, Hn).
  cbn [value summaryOfTotals sales commissions delivery returns ads services
       totalIncome totalExpenses] in *.
  field. intro E. rewrite E in Ht. apply (Qlt_irrefl 0), Ht.
Qed.

(** X4: the percentages of the category list of tier 3 add up to 100,
    whatever the rows. *)
Theorem tier3_percentages_total :
  forall transactionData : option (list RawRecord),
    sumOf percentage (categories (tier3 transactionData)) == 100.
Proof.
  exact tier3_percentages.
Qed.

(** X5: the profitability card of the finance page never shows more than
    100 % on a tier-3 result, and shows 0 while there is no data. *)
Theorem profitability_tier3 :
  (forall transactionData, profitability (Some (tier3 transactionData)) <= 100) /\
  profitability None = 0.
Proof.
  split; [|reflexivity].
  intro transactionData.
  destruct (tier3_totals_nonneg transactionData) as (H1 & H2 & H3 & H4 & H5 & H6).
  unfold profitability, tier3.
  cbn [summary withCategories summaryOfTotals totalIncome netProfit].
  set (t := ensureMinimum (categorizeAll transactionData)) in *.
  destruct (Qgtb (totalSales t) 0) eqn:E; [|lra].
  apply Qgtb_true in E.
  assert (Hq : (totalSales t - (totalCommissions t + totalDelivery t + totalReturns t
                                + totalAds t + totalServices t)) / totalSales t <= 1).
  { apply Qle_shift_div_r; [exact E | lra]. }
  revert Hq. generalize ((totalSales t - (totalCommissions t + totalDelivery t
    + totalReturns t + totalAds t + totalServices t)) / totalSales t).
  intros q Hq. lra.
Qed.

Lemma sumOf_bound {A} (f : A -> Q) (m : Q) (l : list A) :
  (forall x, In x l -> f x <= m) ->
  sumOf f l <= inject_Z (Z.of_nat (List.length l)) * m.
Proof.
  unfold sumOf. induction l as [|x l IH]; intro H; cbn [fold_right List.length].
  - change (inject_Z (Z.of_nat 0)) with 0. lra.
  - rewrite Nat2Z.inj_succ. unfold Z.succ. rewrite inject_Z_plus.
    assert (Hx : f x <= m) by (apply H; left; reflexivity).
    assert (Hl : fold_right (fun x acc => f x + acc) 0 l
                 <= inject_Z (Z.of_nat (List.length l)) * m)
      by (apply IH; intros y Hy; apply H; right; exact Hy).
    change (inject_Z 1) with 1.
    revert Hl. generalize (inject_Z (Z.of_nat (List.length l))).
    generalize (fold_right (fun x acc => f x + acc) 0 l). intros a n Hl.
    setoid_replace ((n + 1) * m) with (n * m + m) by ring. lra.
Qed.

Lemma buildCategories_length (s : FinanceSummary) :
  (List.length (buildCategories s) <= 6)%nat.
Proof.
  rewrite buildCategories_eq, !pushBucket_eq.
  destruct (negb (Qeq_bool (value Sales s) 0));
  destruct (negb (Qeq_bool (value Commissions s) 0));
  destruct (negb (Qeq_bool (value Delivery s) 0));
  destruct (negb (Qeq_bool (value Returns s) 0));
  destruct (negb (Qeq_bool (value Ads s) 0));
  destruct (negb (Qeq_bool (value Services s) 0));
  cbn [app List.length]; lia.
Qed.

Lemma withCategories_length (s : FinanceSummary) :
  (List.length (categories (withCategories s)) <= 6)%nat.
Proof.
  cbn [categories withCategories]. unfold jsSort.
  rewrite <- (Permutation_length (sort_perm _ (buildCategories s))).
  apply buildCategories_length.
Qed.

Lemma withCategories_percentage (s : FinanceSummary) (c : FinanceCategory) :
  0 < totalIncome s + totalExpenses s ->
  In c (categories (withCategories s)) ->
  percentage c == amount c / (totalIncome s + totalExpenses s) * 100.
Proof.
  intros Ht Hc.
  destruct (proj1 (withCategories_lists s) c Hc) as (b & _ & _ & _ & Hp & _).
  apply Hp, Ht.
Qed.

Lemma percentage_mono (x y t : Q) :
  0 < t -> x <= y -> x / t * 100 <= y / t * 100.
Proof.
  intros Ht Hxy. unfold Qdiv.
  assert (Hi : 0 < / t) by (apply Qinv_lt_0_compat, Ht).
  assert (H : x * / t <= y * / t) by (apply Qmult_le_compat_r; lra).
  lra.
Qed.

(** The first entry of a tier-3 list holds at least a sixth of the total. *)
Lemma tier3_first_entry (transactionData : option (list RawRecord)) :
  exists c rest,
    categories (tier3 transactionData) = c :: rest /\ (100 # 6) <= percentage c.
Proof.
  pose proof (tier3_percentages transactionData) as Hsum.
  pose proof (tier3_total_pos transactionData) as Ht.
  pose proof (withCategories_sorted
                (summaryOfTotals (ensureMinimum (categorizeAll transactionData)))) as Hs.
  pose proof (withCategories_length
                (summaryOfTotals (ensureMinimum (categorizeAll transactionData)))) as Hlen.
  pose proof (withCategories_percentage
                (summaryOfTotals (ensureMinimum (categorizeAll transactionData)))) as Hp.
  unfold tier3 in *.
  cbn [summary] in Ht.
  set (s := summaryOfTotals (ensureMinimum (categorizeAll transactionData))) in *.
  destruct (categories (withCategories s)) as [|c rest] eqn:El.
  - exfalso. cbn in Hsum. revert Hsum. unfold Qeq. cbn. discriminate.
  - exists c, rest. split; [reflexivity|].
    inversion Hs as [|? ? _ Hc]; subst.
    assert (Hmax : forall x, In x (c :: rest) -> percentage x <= percentage c).
    { intros x Hx.
      rewrite (Hp x Ht Hx), (Hp c Ht (or_introl eq_refl)).
      apply percentage_mono; [exact Ht|].
      destruct Hx as [<-|Hx]; [lra|].
      rewrite Forall_forall in Hc. destruct (Hc x Hx) as [H|[H _]]; lra. }
    pose proof (sumOf_bound percentage (percentage c) (c :: rest) Hmax) as Hb.
    rewrite Hsum in Hb.
    apply Nat2Z.inj_le in Hlen. rewrite Zle_Qle in Hlen.
    change (inject_Z (Z.of_nat 6)) with 6 in Hlen.
    assert (Hn0 : 0 <= inject_Z (Z.of_nat (List.length (c :: rest)))).
    { change 0 with (inject_Z 0). rewrite <- Zle_Qle. apply Nat2Z.is_nonneg. }
    revert Hb Hlen Hn0. generalize (inject_Z (Z.of_nat (List.length (c :: rest)))).
    generalize (percentage c). intros p n Hb Hn Hn0.
    assert (Hp0 : 0 < p).
    { apply Qnot_le_lt. intro Hle.
      pose proof (Qmult_le_compat_r p 0 n Hle Hn0) as Hm.
      setoid_replace (0 * n) with 0 in Hm by ring.
      setoid_replace (p * n) with (n * p) in Hm by ring. lra. }
    assert (H6 : n * p <= 6 * p) by (apply Qmult_le_compat_r; lra).
    lra.
Qed.

Lemma chart_NoData (d : FinanceData) :
  FinancePieChart (settled d) = NoData <-> categories d = [].
Proof.
  unfold FinancePieChart, settled. cbn [isLoading queryError queryData].
  destruct (categories d); cbn; split; intro H; try reflexivity; discriminate H.
Qed.

Lemma withCategories_empty (s : FinanceSummary) :
  categories (withCategories s) = [] <-> forall b, value b s == 0.
Proof.
  destruct (withCategories_lists s) as [H1 H2]. cbn [summary withCategories] in H1, H2.
  split.
  - intros E b. destruct (Qeq_dec (value b s) 0) as [Hz|Hz]; [exact Hz|].
    exfalso. destruct (H2 b Hz) as (c & Hc & _). rewrite E in Hc. exact Hc.
  - intro Hz. destruct (categories (withCategories s)) as [|c rest] eqn:E; [reflexivity|].
    exfalso. destruct (H1 c (or_introl eq_refl)) as (b & Hb & _). apply Hb, Hz.
Qed.

(** X6: once the query has settled on a tier-3 result, the pie chart is
    drawn (never the "no data" text) and its first slice, the largest, is
    at least a sixth of the total and therefore keeps its label. *)
Theorem chart_of_tier3 :
  forall transactionData : option (list RawRecord),
    exists p labels fills,
      FinancePieChart (settled (tier3 transactionData)) = Chart (Some p :: labels) fills /\
      (100 # 6) <= p.
Proof.
  intro transactionData.
  destruct (tier3_first_entry transactionData) as (c & rest & E & Hp).
  exists (percentage c), (map renderCustomLabel rest), (map color (c :: rest)).
  split; [|exact Hp].
  unfold FinancePieChart, settled. cbn [isLoading queryError queryData].
  rewrite E. cbn [List.length Nat.eqb map].
  unfold renderCustomLabel at 1.
  assert (H5 : Qgtb 5 (percentage c) = false).
  { apply Qgtb_false. apply Qle_trans with (100 # 6); [|exact Hp].
    unfold Qle; cbn; lia. }
  rewrite H5. reflexivity.
Qed.

(** X7: when tier 2 is the tier that answers, the pie chart shows the
    "no data" text whatever totals the procedure returned; on a tier-1
    result it does so exactly when revenue, commissions and service costs
    of the view all sum to 0, which includes a view without rows. *)
Theorem chart_without_data :
  (forall supabase d,
     Async.run (queryFn supabase) = (Resolved d, traceTier2) ->
     FinancePieChart (settled d) = NoData) /\
  (forall summaryData,
     FinancePieChart (settled (tier1 summaryData)) = NoData <->
     sumField total_revenue summaryData == 0 /\
     sumField total_commission summaryData == 0 /\
     sumField total_service_costs summaryData == 0) /\
  FinancePieChart (settled (tier1 (Some []))) = NoData.
Proof.
  split; [|split].
  - intros supabase d H.
    destruct (queryFn_resolved supabase d _ H) as [[_ E]|[[-> _]|[_ E]]];
      try discriminate E.
    reflexivity.
  - intro summaryData. rewrite chart_NoData. unfold tier1.
    rewrite withCategories_empty. split.
    + intro H.
      pose proof (H Sales) as H1. pose proof (H Commissions) as H2.
      pose proof (H Delivery) as H3.
      cbn [value sales commissions delivery] in H1, H2, H3.
      repeat split; lra.
    + intros (H1 & H2 & H3) b.
      destruct b; cbn [value sales commissions delivery returns ads services]; lra.
  - reflexivity.
Qed.

(** A backend where the procedure answers with sales of 100. *)
Lemma chart_without_data_witness :
  Async.run (queryFn rpcMismatch) =
    (Resolved (tier2 (data (get_finance_summary rpcMismatch))), traceTier2) /\
  FinancePieChart (settled (tier2 (data (get_finance_summary rpcMismatch)))) = NoData.
Proof.
  split; [reflexivity|].
  apply (proj1 chart_without_data rpcMismatch). reflexivity.
Defined.

(** ** Rows of the breakdown *)

(** X8: in a row of the breakdown of [useFinanceData.ts] the services
    contribution is the absolute value of [net_profit], the commissions,
    delivery, returns and services contributions are never negative and
    ads is 0.  In the variant on the [transactions] table every amount is
    counted once, as delivery or as services: the two add up to the
    absolute value of [net_profit], one of them is 0, and sales,
    commissions, returns and ads are 0. *)
Theorem breakdown_row_invariants :
  (forall today item,
     let row := Breakdown.project today item in
     Breakdown.services row == Qabs (Breakdown.net_profit row) /\
     0 <= Breakdown.commissions row /\ 0 <= Breakdown.delivery row /\
     0 <= Breakdown.returns row /\ 0 <= Breakdown.services row /\
     Breakdown.ads row = 0) /\
  (forall item,
     let row := Transactions.project item in
     Breakdown.delivery row + Breakdown.services row == Qabs (Breakdown.net_profit row) /\
     (Breakdown.delivery row = 0 \/ Breakdown.services row = 0) /\
     Breakdown.sales row = 0 /\ Breakdown.commissions row = 0 /\
     Breakdown.returns row = 0 /\ Breakdown.ads row = 0).
Proof.
  split.
  - intros today item row. subst row. unfold Breakdown.project.
    cbn [Breakdown.services Breakdown.net_profit Breakdown.commissions
         Breakdown.delivery Breakdown.returns Breakdown.ads].
    repeat split; try apply or0_abs_nonneg.
    rewrite !or0_eq. reflexivity.
  - intros item row. subst row. unfold Transactions.project.
    cbn [Breakdown.services Breakdown.net_profit Breakdown.commissions
         Breakdown.delivery Breakdown.returns Breakdown.ads Breakdown.sales].
    rewrite or0_eq. unfold abs.
    destruct (Transactions.deliveryTagged item); cbn [negb];
      repeat split; try (left; reflexivity); try (right; reflexivity); lra.
Qed.

(** ** The variant on the [postings] table *)





Lemma postings_pushCategory (s : FinanceSummary) (b : Bucket) :
  Postings.pushCategory (totalIncome s + totalExpenses s) (key b, value b s) =
  if Qgtb (value b s) 0 then
    [ {| category := label b;
         amount := match b with Sales => value b s | _ => abs (value b s) end;
         percentage :=
           if Qgtb (totalIncome s + totalExpenses s) 0
           then (match b with Sales => value b s | _ => abs (value b s) end
                 / (totalIncome s + totalExpenses s)) * 100
           else 0;
         color := propOr CATEGORY_COLORS (key b) |} ]
  else [].
Proof.
  destruct b; reflexivity.
Qed.

Lemma postings_buildCategories (s : FinanceSummary) :
  Postings.buildCategories s =
  (Postings.pushCategory (totalIncome s + totalExpenses s) (key Sales, value Sales s) ++
   Postings.pushCategory (totalIncome s + totalExpenses s) (key Commissions, value Commissions s) ++
   Postings.pushCategory (totalIncome s + totalExpenses s) (key Delivery, value Delivery s) ++
   Postings.pushCategory (totalIncome s + totalExpenses s) (key Returns, value Returns s) ++
   Postings.pushCategory (totalIncome s + totalExpenses s) (key Ads, value Ads s) ++
   Postings.pushCategory (totalIncome s + totalExpenses s) (key Services, value Services s))%list.
Proof.
  rewrite <- (app_nil_r (Postings.pushCategory _ (key Services, value Services s))).
  reflexivity.
Qed.

Lemma postings_ranked (s : FinanceSummary) :
  StronglySorted
    (fun a b => (labelRank (category a) < labelRank (category b))%nat)
    (Postings.buildCategories s).
Proof.
  rewrite postings_buildCategories, !postings_pushCategory.
  destruct (Qgtb (value Sales s) 0);
  destruct (Qgtb (value Commissions s) 0);
  destruct (Qgtb (value Delivery s) 0);
  destruct (Qgtb (value Returns s) 0);
  destruct (Qgtb (value Ads s) 0);
  destruct (Qgtb (value Services s) 0);
  cbn [app];
  repeat (constructor; cbn [category]; rewrite ?labelRank_label; try lia).
Qed.

Lemma postings_In (s : FinanceSummary) (c : FinanceCategory) :
  In c (Postings.buildCategories s) ->
  exists b, category c = label b /\ 0 < value b s /\ amount c == value b s.
Proof.
  rewrite postings_buildCategories, !in_app_iff, !postings_pushCategory.
  assert (H : forall b,
    In c (if Qgtb (value b s) 0 then
      [ {| category := label b;
           amount := match b with Sales => value b s | _ => abs (value b s) end;
           percentage :=
             if Qgtb (totalIncome s + totalExpenses s) 0
             then (match b with Sales => value b s | _ => abs (value b s) end
                   / (totalIncome s + totalExpenses s)) * 100
             else 0;
           color := propOr CATEGORY_COLORS (key b) |} ]
      else []) ->
    exists b, category c = label b /\ 0 < value b s /\ amount c == value b s).
  { intros b Hb. destruct (Qgtb (value b s) 0) eqn:E; [|destruct Hb].
    apply Qgtb_true in E. destruct Hb as [<-|[]]. exists b.
    cbn [category amount]. repeat split; [exact E|].
    destruct b; try reflexivity; apply Qabs_pos; lra. }
  intros [Hc|[Hc|[Hc|[Hc|[Hc|Hc]]]]]; eapply H; exact Hc.
Qed.

(** X10: the category list of the variant on the [postings] table has an
    entry only for a bucket strictly greater than 0, with the bucket as
    amount, and is sorted by descending amount with ties in the order of
    the enumeration. *)
Theorem postings_categories :
  forall dateColumn startDate endDate revenueData serviceData,
    let d := Postings.result dateColumn startDate endDate revenueData serviceData in
    StronglySorted precedes (categories d) /\
    forall c, In c (categories d) ->
      exists b, category c = label b /\ 0 < value b (summary d) /\
                amount c == value b (summary d).
Proof.
  intros dateColumn startDate endDate revenueData serviceData d. subst d.
  unfold Postings.result. cbn [categories summary]. unfold jsSort. split.
  - apply sort_sorted with
      (P := fun _ => True)
      (T := fun a b => (labelRank (category a) < labelRank (category b))%nat).
    + intros x y _ _ H. apply Qgtb_true in H. unfold byAmountDesc in H. left. lra.
    + intros x y _ _ H Hr. apply Qgtb_false in H. unfold byAmountDesc in H.
      unfold precedes. destruct (Qlt_le_dec (amount y) (amount x)) as [Hlt|Hle].
      * left; exact Hlt.
      * right; split; [lra | exact Hr].
    + apply precedes_trans.
    + apply Forall_forall. intros; exact I.
    + apply postings_ranked.
  - intros c Hc. apply sort_In in Hc. apply postings_In, Hc.
Qed.

(** The list of a period with one posting and one delivery row. *)
Lemma postings_categories_witness :
  let d := Postings.result Postings.order_date 1 31
             (Some [Postings.mkPosting (Some 500) (Some 2) (Some 900) (Some (-100))
                      (Some (fun _ => Some 5%Z))])
             (Some [Transactions.mkTransaction (Some 5%Z) None (Some "Delivery") (Some (-80))]) in
  In (mkFinanceCategory (label Sales) 1000 (100000 # 1180) "#10b981") (categories d) /\
  exists b, category (mkFinanceCategory (label Sales) 1000 (100000 # 1180) "#10b981") = label b /\
            0 < value b (summary d) /\ 1000 == value b (summary d).
Proof.
  assert (H : In (mkFinanceCategory (label Sales) 1000 (100000 # 1180) "#10b981")
     (categories (Postings.result Postings.order_date 1 31
        (Some [Postings.mkPosting (Some 500) (Some 2) (Some 900) (Some (-100))
                 (Some (fun _ => Some 5%Z))])
        (Some [Transactions.mkTransaction (Some 5%Z) None (Some "Delivery") (Some (-80))])))).
  { left. reflexivity. }
  split; [exact H|].
  exact (proj2 (postings_categories _ _ _ _ _) _ H).
Defined.

(** X11: the variant on the [postings] table has no fallback and no
    demonstration figures.  An error of the postings query rejects the
    run with that error; otherwise a date of the chosen column that does
    not parse rejects it with the [RangeError], whatever the transactions
    query answers; otherwise an error of the transactions query rejects
    it with that error; and otherwise, when no posting falls in the period
    and there is no service row, the summary is all-zero and the category
    list is empty. *)
Theorem postings_queryFn :
  forall dateColumn startDate endDate revenue service,
    (forall e, error revenue = Some e ->
       Postings.queryFn dateColumn startDate endDate revenue service = Rejected e) /\
    (error revenue = None ->
     (exists item, In item (orEmpty (data revenue)) /\
                   Postings.throwsOn dateColumn item = true) ->
     Postings.queryFn dateColumn startDate endDate revenue service =
       Rejected Postings.rangeError) /\
    (forall e, error revenue = None ->
       (forall item, In item (orEmpty (data revenue)) ->
                     Postings.throwsOn dateColumn item = false) ->
       error service = Some e ->
       Postings.queryFn dateColumn startDate endDate revenue service = Rejected e) /\
    (error revenue = None ->
     (forall item, In item (orEmpty (data revenue)) ->
                   Postings.throwsOn dateColumn item = false) ->
     error service = None ->
     filter (Postings.inPeriod dateColumn startDate endDate)
            (map Postings.parsed (orEmpty (data revenue))) = [] ->
     orEmpty (data service) = [] ->
     exists d,
       Postings.queryFn dateColumn startDate endDate revenue service = Resolved d /\
       allZeroSummary (summary d) /\ categories d = []).
Proof.
  intros dateColumn startDate endDate revenue service. unfold Postings.queryFn.
  assert (Hno : (forall item, In item (orEmpty (data revenue)) ->
                              Postings.throwsOn dateColumn item = false) ->
                existsb (Postings.throwsOn dateColumn) (orEmpty (data revenue)) = false).
  { intro H. destruct (existsb _ _) eqn:E; [|reflexivity].
    apply existsb_exists in E. destruct E as (item & Hi & Ht).
    rewrite (H item Hi) in Ht. discriminate Ht. }
  split; [|split; [|split]].
  - intros e H. rewrite H. reflexivity.
  - intros H He. rewrite H.
    assert (E : existsb (Postings.throwsOn dateColumn) (orEmpty (data revenue)) = true)
      by (apply existsb_exists; exact He).
    rewrite E. reflexivity.
  - intros e H1 Hp H2. rewrite H1, (Hno Hp), H2. reflexivity.
  - intros H1 Hp H2 Hf Hs. rewrite H1, (Hno Hp), H2. eexists. split; [reflexivity|].
    unfold Postings.result, Postings.serviceCosts. cbn [orEmpty]. rewrite Hf, Hs.
    split; [|reflexivity].
    unfold allZeroSummary. cbn. repeat split; reflexivity.
Qed.

(** A posting outside the period and no service row; and a posting whose
    ship date does not parse, with a failing transactions query. *)
Lemma postings_queryFn_witness :
  (exists d,
     Postings.queryFn Postings.ship_date 1 31
       (available [Postings.Raw.mkPosting (Some 500) None None None
                     (Some (fun _ => Some (Postings.Day 40)))])
       (available []) = Resolved d /\
     allZeroSummary (summary d) /\ categories d = []) /\
  Postings.queryFn Postings.ship_date 1 31
    (available [Postings.Raw.mkPosting (Some 500) None None None
                  (Some (fun _ => Some Postings.InvalidDate))])
    (unavailable "timeout") = Rejected Postings.rangeError.
Proof.
  split.
  - apply (proj2 (proj2 (proj2 (postings_queryFn Postings.ship_date 1 31
      (available [Postings.Raw.mkPosting (Some 500) None None None
                    (Some (fun _ => Some (Postings.Day 40)))])
      (available []))))); try reflexivity.
    intros item [<-|[]]. reflexivity.
  - apply (proj1 (proj2 (postings_queryFn Postings.ship_date 1 31
      (available [Postings.Raw.mkPosting (Some 500) None None None
                    (Some (fun _ => Some Postings.InvalidDate))])
      (unavailable "timeout")))); [reflexivity|].
    eexists. split; [left; reflexivity | reflexivity].
Defined.

(** ** The regions page *)

Lemma Column_eqb_eq (a b : Regions.Column) : Regions.Column_eqb a b = true <-> a = b.
Proof.
  destruct a, b; cbn; split; intro H; try reflexivity; discriminate H.
Qed.

Lemma Column_eqb_refl (a : Regions.Column) : Regions.Column_eqb a a = true.
Proof. apply Column_eqb_eq. reflexivity. Qed.

Lemma Column_eqb_neq (a b : Regions.Column) : a <> b -> Regions.Column_eqb a b = false.
Proof.
  intro H. destruct (Regions.Column_eqb a b) eqn:E; [|reflexivity].
  apply Column_eqb_eq in E. contradiction.
Qed.

(** X12: a click on a column header makes that column the sort column;
    on another column than the current one the order starts descending,
    a second click on the same column turns it ascending, and two clicks on
    the current column restore the state.  After the click every other
    column shows the neutral icon. *)
Theorem handleSort_clicks :
  forall (st : Regions.SortState) (column : Regions.Column),
    Regions.sortBy (Regions.handleSort column st) = column /\
    (Regions.sortBy st <> column ->
     Regions.handleSort column st = Regions.mkSortState column Regions.desc /\
     Regions.handleSort column (Regions.handleSort column st) =
       Regions.mkSortState column Regions.asc) /\
    (Regions.sortBy st = column ->
     Regions.handleSort column (Regions.handleSort column st) = st) /\
    (forall other, other <> column ->
       Regions.getSortIcon (Regions.handleSort column st) other = "↕️").
Proof.
  intros [by0 order0] column. cbn [Regions.sortBy].
  repeat split.
  - unfold Regions.handleSort. cbn [Regions.sortBy].
    destruct (Regions.Column_eqb by0 column) eqn:E; cbn [Regions.sortBy]; [|reflexivity].
    apply Column_eqb_eq, E.
  - unfold Regions.handleSort. cbn [Regions.sortBy].
    rewrite (Column_eqb_neq _ _ H). reflexivity.
  - unfold Regions.handleSort. cbn [Regions.sortBy Regions.sortOrder].
    rewrite (Column_eqb_neq _ _ H). cbn [Regions.sortBy Regions.sortOrder].
    rewrite Column_eqb_refl. reflexivity.
  - intros ->. unfold Regions.handleSort. cbn [Regions.sortBy Regions.sortOrder].
    rewrite Column_eqb_refl. cbn [Regions.sortBy Regions.sortOrder].
    rewrite Column_eqb_refl. destruct order0; reflexivity.
  - intros other Ho. unfold Regions.getSortIcon, Regions.handleSort.
    cbn [Regions.sortBy].
    destruct (Regions.Column_eqb by0 column) eqn:E; cbn [Regions.sortBy].
    + apply Column_eqb_eq in E. subst by0.
      rewrite (Column_eqb_neq column other) by (intro; apply Ho; symmetry; assumption).
      reflexivity.
    + rewrite (Column_eqb_neq column other) by (intro; apply Ho; symmetry; assumption).
      reflexivity.
Qed.

(** From the initial state, a click on the orders column and two clicks
    on the revenue column. *)
Lemma handleSort_clicks_witness :
  Regions.handleSort Regions.orders Regions.initialState =
    Regions.mkSortState Regions.orders Regions.desc /\
  Regions.handleSort Regions.revenue
    (Regions.handleSort Regions.revenue Regions.initialState) = Regions.initialState.
Proof.
  split.
  - apply (proj1 (proj2 (handleSort_clicks Regions.initialState Regions.orders))).
    discriminate.
  - apply (proj1 (proj2 (proj2 (handleSort_clicks Regions.initialState Regions.revenue)))).
    reflexivity.
Defined.

(** X13: the table of the regions page shows exactly the rows it was
    given (none lost, none repeated) in whichever state, and nothing while
    there is no data; sorted by a number column, the rows stand in
    ascending or descending order of that number ([Number(v) || 0]) as
    the state says. *)
Theorem sortedData_sorted :
  forall (localeCompare : string -> string -> Q) (st : Regions.SortState),
    Regions.sortedData localeCompare None st = [] /\
    (forall rows, Permutation rows (Regions.sortedData localeCompare (Some rows) st)) /\
    (Regions.sortBy st <> Regions.region ->
     forall rows,
       StronglySorted (inOrder st) (Regions.sortedData localeCompare (Some rows) st)).
Proof.
  intros localeCompare st. split; [reflexivity|]. split.
  - intro rows. unfold Regions.sortedData, jsSort. apply sort_perm.
  - intros Hcol rows. unfold Regions.sortedData, jsSort.
    assert (Hcmp : forall a b,
      Regions.compareRows localeCompare st a b =
      match Regions.sortOrder st with
      | Regions.asc => Regions.numberOr0 (Regions.numbers a (Regions.sortBy st))
                       - Regions.numberOr0 (Regions.numbers b (Regions.sortBy st))
      | Regions.desc => Regions.numberOr0 (Regions.numbers b (Regions.sortBy st))
                        - Regions.numberOr0 (Regions.numbers a (Regions.sortBy st))
      end).
    { intros a b. unfold Regions.compareRows.
      destruct (Regions.sortBy st); try reflexivity. contradiction Hcol. reflexivity. }
    apply sort_sorted with (P := fun _ => True) (T := fun _ _ => True).
    + intros x y _ _ H. rewrite Hcmp in H. apply Qgtb_true in H.
      unfold inOrder. destruct (Regions.sortOrder st); lra.
    + intros x y _ _ H _. rewrite Hcmp in H. apply Qgtb_false in H.
      unfold inOrder. destruct (Regions.sortOrder st); lra.
    + intros x y z. unfold inOrder. destruct (Regions.sortOrder st); lra.
    + apply Forall_forall. intros; exact I.
    + apply anyOrder.
Qed.

(** Two regions in the initial state: the one with the larger revenue
    comes first. *)
Lemma sortedData_sorted_witness :
  Regions.sortBy Regions.initialState <> Regions.region /\
  StronglySorted (inOrder Regions.initialState)
    (Regions.sortedData (fun _ _ => 0) (Some twoRegions) Regions.initialState) /\
  map Regions.name (Regions.sortedData (fun _ _ => 0) (Some twoRegions) Regions.initialState)
    = ["Казань"; "Москва"].
Proof.
  split; [discriminate|]. split; [|reflexivity].
  apply (proj2 (proj2 (sortedData_sorted (fun _ _ => 0) Regions.initialState))).
  discriminate.
Defined.

(** ** The breakdown against the summary *)

(** X14: for every row of the view, the sales, commissions, delivery,
    returns and ads columns of its breakdown row are at most what the row
    adds to the bucket of the same name in tier 3 (so the columns of the
    detail table never add up to more than the loop totals), and a
    structured field that is set gives the same number in both. *)
Theorem breakdown_within_summary :
  forall (today : Z) (item : RawRecord),
    let row := Breakdown.project today item in
    (Breakdown.sales row <= contribution Sales item /\
     Breakdown.commissions row <= contribution Commissions item /\
     Breakdown.delivery row <= contribution Delivery item /\
     Breakdown.returns row <= contribution Returns item /\
     Breakdown.ads row <= contribution Ads item) /\
    (0 < Breakdown.sales row -> contribution Sales item == Breakdown.sales row) /\
    (0 < Breakdown.commissions row ->
     contribution Commissions item == Breakdown.commissions row) /\
    (0 < Breakdown.delivery row -> contribution Delivery item == Breakdown.delivery row) /\
    (0 < Breakdown.returns row -> contribution Returns item == Breakdown.returns row).
Proof.
  intros today item row. subst row.
  pose proof (or0_abs_nonneg (toNumber (item_amount item))) as Ha.
  unfold contribution, categorize, Breakdown.project.
  cbn [Breakdown.sales Breakdown.commissions Breakdown.delivery Breakdown.returns
       Breakdown.ads total totalSales totalCommissions totalDelivery totalReturns
       totalAds zeroTotals].
  repeat split.
  - destruct (Qgtb (or0 (toNumber (accruals_for_sale item))) 0) eqn:E.
    + lra.
    + apply Qgtb_false in E. destruct (kw_sales _); lra.
  - destruct (Qgtb (or0 (abs (toNumber (sale_commission item)))) 0) eqn:E.
    + lra.
    + apply Qgtb_false in E. destruct (kw_commissions _); lra.
  - destruct (Qgtb (or0 (abs (toNumber (delivery_charge item)))) 0) eqn:E.
    + lra.
    + apply Qgtb_false in E. destruct (kw_delivery _); lra.
  - destruct (Qgtb (or0 (abs (toNumber (return_delivery_charge item)))) 0) eqn:E.
    + lra.
    + apply Qgtb_false in E. destruct (kw_returns _); lra.
  - destruct (kw_ads _); lra.
  - intro H. apply Qgtb_true in H. rewrite H. lra.
  - intro H. apply Qgtb_true in H. rewrite H. lra.
  - intro H. apply Qgtb_true in H. rewrite H. lra.
  - intro H. apply Qgtb_true in H. rewrite H. lra.
Qed.

(** The row with sales of 1000 and a commission of 150. *)
Lemma breakdown_within_summary_witness :
  0 < Breakdown.sales (Breakdown.project 0 saleWithCommission) /\
  contribution Sales saleWithCommission
    == Breakdown.sales (Breakdown.project 0 saleWithCommission).
Proof.
  split; [reflexivity|].
  apply (proj1 (proj2 (breakdown_within_summary 0%Z saleWithCommission))).
  reflexivity.
Defined.

(** ** The category list of tier 1 *)

(** X15: a category list of tier 1 never has an entry for returns or for
    ads; it has a delivery entry exactly when it has a services entry, and
    the amount of the delivery entry is then smaller than the one of the
    services entry. *)
Theorem tier1_categories :
  forall (summaryData : option (list SummaryRow)),
    let d := tier1 summaryData in
    (forall c, In c (categories d) ->
       category c = label Sales \/ category c = label Commissions \/
       category c = label Delivery \/ category c = label Services) /\
    ((exists c, In c (categories d) /\ category c = label Delivery) <->
     (exists c, In c (categories d) /\ category c = label Services)) /\
    (forall cd cs, In cd (categories d) -> In cs (categories d) ->
       category cd = label Delivery -> category cs = label Services ->
       amount cd < amount cs).
Proof.
  intros summaryData d. subst d. unfold tier1.
  set (s := {| sales := sumField total_revenue summaryData;
               commissions := sumField total_commission summaryData;
               delivery := sumField total_service_costs summaryData * 0.3;
               returns := 0; ads := 0;
               services := sumField total_service_costs summaryData * 0.7;
               totalIncome := sumField total_revenue summaryData;
               totalExpenses := sumField total_commission summaryData
                                + sumField total_service_costs summaryData;
               netProfit := sumField total_payout summaryData |}).
  destruct (withCategories_lists s) as [H1 H2]. cbn [summary withCategories] in H1, H2.
  assert (Hlabel : forall c b b', category c = label b -> category c = label b' -> b = b').
  { intros c b b' E1 E2. rewrite E1 in E2. destruct b, b'; try reflexivity; discriminate E2. }
  split; [|split].
  - intros c Hc. destruct (H1 c Hc) as (b & Hnz & Hl & _).
    destruct b; try tauto; exfalso; apply Hnz; reflexivity.
  - split; intros (c & Hc & El).
    + destruct (H1 c Hc) as (b & Hnz & Hl & _).
      assert (b = Delivery) by (apply (Hlabel c); assumption). subst b.
      destruct (H2 Services) as (c' & Hc' & Hl' & _).
      { cbn [value services delivery s] in *. lra. }
      exists c'. split; assumption.
    + destruct (H1 c Hc) as (b & Hnz & Hl & _).
      assert (b = Services) by (apply (Hlabel c); assumption). subst b.
      destruct (H2 Delivery) as (c' & Hc' & Hl' & _).
      { cbn [value services delivery s] in *. lra. }
      exists c'. split; assumption.
  - intros cd cs Hd Hs Ed Es.
    destruct (H1 cd Hd) as (b & Hnz & Hl & Ha & _).
    assert (b = Delivery) by (apply (Hlabel cd); assumption). subst b.
    destruct (H1 cs Hs) as (b & Hnz' & Hl' & Ha' & _).
    assert (b = Services) by (apply (Hlabel cs); assumption). subst b.
    rewrite Ha, Ha'. cbn [value services delivery s] in *. unfold abs.
    set (x := sumField total_service_costs summaryData) in *.
    assert (Hx : ~ x == 0) by lra.
    setoid_replace (x * 0.3) with (0.3 * x) by ring.
    setoid_replace (x * 0.7) with (0.7 * x) by ring.
    rewrite !Qabs_Qmult.
    pose proof (Qabs_nonneg x) as Hn.
    assert (Hpos : 0 < Qabs x).
    { destruct (Qlt_le_dec 0 (Qabs x)) as [Hlt|Hle]; [exact Hlt|].
      exfalso. apply Hx. apply Qabs_Qle_condition in Hle. lra. }
    change (Qabs 0.3) with 0.3. change (Qabs 0.7) with 0.7. lra.
Qed.

(** A view row with service costs of 100: services 70, then delivery 30. *)
Lemma tier1_categories_witness :
  let d := tier1 (Some [mkSummaryRow None None (Some 100) None]) in
  let dflt := mkFinanceCategory "" 0 0 "" in
  let cs := nth 0 (categories d) dflt in
  let cd := nth 1 (categories d) dflt in
  In cd (categories d) /\ In cs (categories d) /\
  category cd = label Delivery /\ category cs = label Services /\
  amount cd < amount cs.
Proof.
  intros d dflt cs cd.
  assert (Hd : In cd (categories d)).
  { apply nth_In. apply Nat.ltb_lt. vm_compute. reflexivity. }
  assert (Hs : In cs (categories d)).
  { apply nth_In. apply Nat.ltb_lt. vm_compute. reflexivity. }
  assert (Ed : category cd = label Delivery) by reflexivity.
  assert (Es : category cs = label Services) by reflexivity.
  split; [exact Hd|]. split; [exact Hs|]. split; [exact Ed|]. split; [exact Es|].
  exact (proj2 (proj2 (tier1_categories (Some [mkSummaryRow None None (Some 100) None])))
           cd cs Hd Hs Ed Es).
Defined.
